(** * Cluster role assignment helper: [examples/kv/tests/graphql_helper.py]

    A shallow embedding of the script that discovers the servers of a
    cluster, picks the server the queried endpoint calls "self", checks
    that the role ['key-value'] is known and joins that server with the
    role through a GraphQL mutation.

    - [Py] models the Python values the script manipulates (the results
      of [json.loads]) and the operators it applies to them.
    - [GraphqlHelper] embeds the functions of the script over a small
      monad that threads the observable world (requests sent, lines
      printed) and Python exceptions. *)

From Stdlib Require Import String Ascii List ZArith Bool Lia DecimalString.
From ExtLib Require Import Structures.Monad.
Import ListNotations.
Import MonadNotation.
Set Warnings "-register-all".
Local Open Scope monad_scope.
Local Open Scope string_scope.
Local Open Scope list_scope.

(* ===================================================================== *)
(** * Python values and operators *)
(* ===================================================================== *)

Module Py.

(** A Python [float] by its IEEE value: not-a-number, an infinity, or the
    finite number [m * 2^e]. *)
Inductive pyfloat : Type :=
| FNan
| FInf (negative : bool)
| FFinite (m e : Z).

(** What [json.loads] builds: [None], [bool], [int], [float], [str],
    [list] and [dict] with string keys.  A [dict] keeps its insertion
    order, so it is kept as an association list; a key is looked up from
    the front. *)
Inductive pyval : Type :=
| PyNone
| PyBool (b : bool)
| PyInt (z : Z)
| PyFloat (f : pyfloat)
| PyStr (s : string)
| PyList (l : list pyval)
| PyDict (d : list (string * pyval)).

(** The exceptions that can leave the script. *)
Inductive exc : Type :=
| AssertionError
| KeyError (key : string)
| TypeError
| IndexError
| SystemExit (code : Z)
| URLError (reason : string)
| RequestException (reason : string)
| JSONDecodeError (msg : string).

(** The outcome of evaluating an expression. *)
Inductive result (A : Type) : Type :=
| Ok (a : A)
| Raise (e : exc).
Arguments Ok {A} a.
Arguments Raise {A} e.

Fixpoint dict_get {V : Type} (d : list (string * V)) (k : string) : option V :=
  match d with
  | [] => None
  | (k', v) :: rest => if String.eqb k' k then Some v else dict_get rest k
  end.

Definition dict_has {V : Type} (d : list (string * V)) (k : string) : bool :=
  match dict_get d k with Some _ => true | None => false end.

(** [d[k] = v]: the value of an existing key is replaced where it stands,
    a new key goes to the end. *)
Fixpoint dict_set {V : Type} (d : list (string * V)) (k : string) (v : V)
  : list (string * V) :=
  match d with
  | [] => [(k, v)]
  | (k', v') :: rest =>
      if String.eqb k' k then (k', v) :: rest else (k', v') :: dict_set rest k v
  end.

(** [needle in hay] on two [str]: [needle] occurs in [hay] as a substring. *)
Fixpoint str_contains (hay needle : string) : bool :=
  String.prefix needle hay
  || match hay with
     | EmptyString => false
     | String _ rest => str_contains rest needle
     end.

(** Iterating a [str] yields its characters as one-character strings. *)
Fixpoint str_chars (s : string) : list string :=
  match s with
  | EmptyString => []
  | String c rest => String c EmptyString :: str_chars rest
  end.

(** [c * n] for a one-character string. *)
Fixpoint str_repeat (c : ascii) (n : nat) : string :=
  match n with
  | O => EmptyString
  | S n' => String c (str_repeat c n')
  end.

(** ** Equality [==] *)

Definition float_eq (f g : pyfloat) : bool :=
  match f, g with
  | FInf a, FInf b => Bool.eqb a b
  | FFinite m1 e1, FFinite m2 e2 =>
      let e := Z.min e1 e2 in
      (m1 * 2 ^ (e1 - e) =? m2 * 2 ^ (e2 - e))%Z
  | _, _ => false
  end.

(** The number a [bool], [int] or [float] stands for; [bool] is a
    subclass of [int]. *)
Definition as_number (v : pyval) : option pyfloat :=
  match v with
  | PyBool b => Some (FFinite (Z.b2z b) 0)
  | PyInt z => Some (FFinite z 0)
  | PyFloat f => Some f
  | _ => None
  end.

Definition number_eq (f : pyfloat) (b : pyval) : bool :=
  match as_number b with
  | Some g => float_eq f g
  | None => false
  end.

(** [json.loads] hands out one and the same object for every [NaN] it
    reads. A comparison of containers takes an item for equal to itself
    before it asks [==], so there, and only there, not-a-number equals
    not-a-number. *)
Definition same_nan (a b : pyval) : bool :=
  match a, b with
  | PyFloat FNan, PyFloat FNan => true
  | _, _ => false
  end.

(** [a == b] on values read from JSON.  Numbers compare by value across
    [bool], [int] and [float]; lists compare item by item; dicts compare
    as maps.  Items of lists and dicts are equal when they are the same
    object or [==]. *)
Fixpoint py_eq (a b : pyval) {struct a} : bool :=
  match a with
  | PyNone => match b with PyNone => true | _ => false end
  | PyBool x => number_eq (FFinite (Z.b2z x) 0) b
  | PyInt z => number_eq (FFinite z 0) b
  | PyFloat f => number_eq f b
  | PyStr s => match b with PyStr t => String.eqb s t | _ => false end
  | PyList l =>
      match b with
      | PyList l' =>
          (fix list_eq (l l' : list pyval) {struct l} : bool :=
             match l, l' with
             | [], [] => true
             | x :: t, y :: t' => (same_nan x y || py_eq x y) && list_eq t t'
             | _, _ => false
             end) l l'
      | _ => false
      end
  | PyDict d =>
      match b with
      | PyDict d' =>
          Nat.eqb (length d) (length d')
          && (fix all_eq (d : list (string * pyval)) {struct d} : bool :=
                match d with
                | [] => true
                | (k, v) :: t =>
                    match dict_get d' k with
                    | Some v' => same_nan v v' || py_eq v v'
                    | None => false
                    end && all_eq t
                end) d
      | _ => false
      end
  end.

(** ** Membership, subscription, iteration *)

(** [key in container] for a [str] key: a key of a dict, an element of a
    list, a substring of a string; any other container is not iterable. *)
Definition py_in (key : string) (container : pyval) : result bool :=
  match container with
  | PyDict d => Ok (dict_has d key)
  | PyList l => Ok (existsb (fun x => py_eq x (PyStr key)) l)
  | PyStr s => Ok (str_contains s key)
  | _ => Raise TypeError
  end.

(** [container[key]] for a [str] key: only a dict accepts it, and raises
    [KeyError] for a key it does not hold. *)
Definition py_getitem (container : pyval) (key : string) : result pyval :=
  match container with
  | PyDict d =>
      match dict_get d key with
      | Some v => Ok v
      | None => Raise (KeyError key)
      end
  | _ => Raise TypeError
  end.

(** [iter(v)]: the elements of a list, the keys of a dict, the characters
    of a string. *)
Definition py_iter (v : pyval) : result (list pyval) :=
  match v with
  | PyList l => Ok l
  | PyDict d => Ok (map (fun kv => PyStr (fst kv)) d)
  | PyStr s => Ok (map PyStr (str_chars s))
  | _ => Raise TypeError
  end.

#[export] Instance Monad_result : Monad result :=
  {| ret := fun _ a => Ok a;
     bind := fun _ _ c k =>
       match c with
       | Ok a => k a
       | Raise e => Raise e
       end |}.

(** Apply a function that may raise to the elements of a list, from the
    front; the first exception stops the traversal. *)
Fixpoint map_result {A B : Type} (f : A -> result B) (l : list A)
  : result (list B) :=
  match l with
  | [] => Ok []
  | x :: rest =>
      y <- f x ;;
      ys <- map_result f rest ;;
      ret (y :: ys)
  end.

(** [a and b] on truth values: [b] is evaluated only when [a] is true. *)
Definition py_and (a b : result bool) : result bool :=
  x <- a ;;
  match x with
  | true => b
  | false => Ok false
  end.

(** [key not in container] *)
Definition py_not_in (key : string) (container : pyval) : result bool :=
  x <- py_in key container ;;
  Ok (negb x).

(** [a if cond else b] *)
Definition py_if_else {A : Type} (a : result A) (cond : result bool)
  (b : result A) : result A :=
  x <- cond ;;
  match x with
  | true => a
  | false => b
  end.

(** [seq[0]] on a Python list. *)
Definition list_first {A : Type} (seq : list A) : result A :=
  match seq with
  | [] => Raise IndexError
  | x :: _ => Ok x
  end.

(** Truth value of a list: empty is false. *)
Definition list_truthy {A : Type} (seq : list A) : bool :=
  match seq with [] => false | _ :: _ => true end.

End Py.

(* ===================================================================== *)
(** * The key-value test client: [api.py] and [action.py] *)
(* ===================================================================== *)

Module KvApi.
Import Py.

Definition DELETE : string := "DELETE".
Definition POST : string := "POST".
Definition PUT : string := "PUT".
Definition GET : string := "GET".

(** The four functions of [requests] the client dispatches to. *)
Inductive http_function : Type :=
| requests_get
| requests_put
| requests_post
| requests_delete.

(** What stands for a body: a tuple, or any other value. *)
Inductive body_arg : Type :=
| Tuple (items : list pyval)
| Value (v : pyval).

(** A call [f(url, **kwargs)] that left the process. *)
Record call : Type := {
  function : http_function;
  url : string;
  kwargs : list (string * body_arg)
}.

Record Response : Type := {
  status_code : Z;
  content : string
}.

(** [str(n)] for an [int]. *)
Definition str_of_int (n : Z) : string :=
  NilZero.string_of_int (Z.to_int n).

(** [s[0]] and [s[1:]] on a [str]. *)
Definition str_first (s : string) : result ascii :=
  match s with
  | EmptyString => Raise IndexError
  | String c _ => Ok c
  end.

Definition str_tail (s : string) : string :=
  match s with
  | EmptyString => EmptyString
  | String _ rest => rest
  end.

(** Truth values. *)
Definition str_truthy (s : string) : bool :=
  match s with EmptyString => false | String _ _ => true end.

Definition py_truthy (v : pyval) : bool :=
  match v with
  | PyNone => false
  | PyBool b => b
  | PyInt z => negb (z =? 0)%Z
  | PyFloat (FFinite m _) => negb (m =? 0)%Z
  | PyFloat _ => true
  | PyStr s => str_truthy s
  | PyList l => list_truthy l
  | PyDict d => list_truthy d
  end.

Definition body_truthy (b : body_arg) : bool :=
  match b with
  | Tuple items => list_truthy items
  | Value v => py_truthy v
  end.

Definition key_truthy (key : option string) : bool :=
  match key with
  | Some k => str_truthy k
  | None => false
  end.

(** [str(key)] for a key that is a string or [None]. *)
Definition str_of_key (key : option string) : string :=
  match key with
  | Some k => k
  | None => "None"
  end.

(** [t[i]] on a tuple. *)
Definition tuple_item (items : list pyval) (i : nat) : result pyval :=
  match nth_error items i with
  | Some v => Ok v
  | None => Raise IndexError
  end.

(** ** [KeyValueStoreApi] *)

Record KeyValueStoreApi : Type := {
  host : string;
  port : Z
}.

(** [self.methods], filled by [__init__]. *)
Definition methods (self : KeyValueStoreApi) : list (string * http_function) :=
  [(GET, requests_get); (PUT, requests_put);
   (POST, requests_post); (DELETE, requests_delete)].

Definition make_url (self : KeyValueStoreApi) (path : string) : result string :=
  first <- str_first path ;;
  Ok ("http://" ++ host self ++ ":" ++ str_of_int (port self)
      ++ (if Ascii.eqb first "/" then path else str_tail path))%string.

Record Action : Type := {
  method : string;
  ex_code : Z;
  body : body_arg;
  key : option string;
  ex_body : pyval;
  cmt : option string
}.

(** The class attribute [path] of [Action]. *)
Definition path : string := "/kv".

(** The world of the test client: the calls made, and the failures the
    test case has recorded, each with the comment of its sub-test, the
    action and the status that came back. *)
Record failure : Type := {
  failed_comment : string;
  case : Action;
  got : Z
}.

Record world : Type := {
  calls : list call;
  failures : list failure
}.

Definition empty_world : world := {| calls := []; failures := [] |}.

Definition called (c : call) (w : world) : world :=
  {| calls := calls w ++ [c]; failures := failures w |}.

Definition failed (f : failure) (w : world) : world :=
  {| calls := calls w; failures := failures w ++ [f] |}.

(** The service behind [requests], and [json.dumps]. An answer may
    depend on the calls made so far; [inl] is a failure of the call. *)
Record Env : Type := {
  answer : list call -> http_function -> string ->
           list (string * body_arg) -> string + Response;
  dumps : pyval -> string
}.

Definition M (A : Type) : Type := world -> result A * world.

#[export] Instance Monad_M : Monad M :=
  {| ret := fun _ a w => (Ok a, w);
     bind := fun _ _ c k w =>
       match c w with
       | (Ok a, w') => k a w'
       | (Raise e, w') => (Raise e, w')
       end |}.

Definition lift {A : Type} (r : result A) : M A := fun w => (r, w).

Section Client.

Variable env : Env.

(** [f(url, **kwargs)] for one of the four functions. *)
Definition requests_call (f : http_function) (target : string)
  (kw : list (string * body_arg)) : M Response :=
  fun w =>
    let c := {| function := f; url := target; kwargs := kw |} in
    match answer env (calls w) f target kw with
    | inr r => (Ok r, called c w)
    | inl reason => (Raise (RequestException reason), called c w)
    end.

(** [self.methods[method]] *)
Definition method_function (self : KeyValueStoreApi) (method : string)
  : result http_function :=
  match dict_get (methods self) method with
  | Some f => Ok f
  | None => Raise (KeyError method)
  end.

Definition make_request (self : KeyValueStoreApi) (method path : string)
  (kw : list (string * body_arg)) : M (Z * option string) :=
  f <- lift (method_function self method) ;;
  target <- lift (make_url self path) ;;
  r <- requests_call f target kw ;;
  if (status_code r =? 500)%Z then ret (status_code r, None)
  else ret (status_code r, Some (content r)).

Definition make_payload (key value : pyval) : string :=
  dumps env (PyDict [("key", key); ("value", value)]).

(** ** [Action] *)

(** [Action(method, expected_code, body, json, key, expected_body,
    comment)]. The key is a string or [None]. *)
Definition Action_init (method : string) (expected_code : Z) (body : body_arg)
  (json : bool) (key : option string) (expected_body : pyval)
  (comment : option string) : result Action :=
  stored <- (if json then
               match body with
               | Tuple items =>
                   k <- tuple_item items 0 ;;
                   v <- tuple_item items 1 ;;
                   Ok (Value (PyStr (make_payload k v)))
               | Value v =>
                   Ok (Value (PyStr (dumps env (PyDict [("value", v)]))))
               end
             else Ok body) ;;
  Ok {| method := method;
        ex_code := expected_code;
        body := stored;
        key := if key_truthy key then key else None;
        ex_body := expected_body;
        cmt := comment |}.

Definition make_path (self : Action) : string :=
  if key_truthy (key self)
  then (path ++ "/" ++ str_of_key (key self))%string
  else path.

(** [perform]. A mismatch of the status is recorded by the sub-test of
    the test case, and the run goes on. *)
Definition perform (self : Action) (api : KeyValueStoreApi) : M unit :=
  answered <- make_request api (method self) (make_path self)
                [("data", if body_truthy (body self) then body self
                          else Value PyNone)] ;;
  let code := fst answered in
  if (code =? ex_code self)%Z then ret tt
  else fun w =>
    (Ok tt,
     failed {| failed_comment :=
                 if key_truthy (cmt self) then str_of_key (cmt self)
                 else "without comments";
               case := self;
               got := code |} w).

(** [test_sequence]: the actions, one after the other. *)
Fixpoint test_sequence (api : KeyValueStoreApi) (seq : list Action) : M unit :=
  match seq with
  | [] => ret tt
  | action :: rest =>
      perform action api ;;
      test_sequence api rest
  end.

End Client.

(** ['http://{domain}:{port}'] for a client. *)
Definition base_url (api : KeyValueStoreApi) : string :=
  ("http://" ++ host api ++ ":" ++ str_of_int (port api))%string.

(** The call [perform] makes for an action. *)
Definition call_of (api : KeyValueStoreApi) (f : http_function)
  (action : Action) : call :=
  {| function := f;
     url := (base_url api ++ make_path action)%string;
     kwargs := [("data", if body_truthy (body action) then body action
                         else Value PyNone)] |}.

(** What the test case records when [action] is answered with [code]
    and expected another status. *)
Definition failure_of (action : Action) (code : Z) : failure :=
  {| failed_comment :=
       if key_truthy (cmt action) then str_of_key (cmt action)
       else "without comments";
     case := action;
     got := code |}.

(** A service that answers every call with the status [code]. *)
Definition always (code : Z) : Env :=
  {| answer := fun _ _ _ _ => inr {| status_code := code; content := "body" |};
     dumps := fun _ => "json" |}.

Definition local_api : KeyValueStoreApi := {| host := "127.0.0.1"; port := 80 |}.

End KvApi.

(* ===================================================================== *)
(** * The script *)
(* ===================================================================== *)

Module GraphqlHelper.
Import Py.

Definition __server_description_fields : list string :=
  ["uri"; "alias"; "status"; "uuid"; "message"; "replicaset"].

(** The namedtuple [ServerDescription]. A field holds whatever the JSON
    answer held under its name, or [None]. *)
Record ServerDescription : Type := {
  uri : pyval;
  alias : pyval;
  status : pyval;
  uuid : pyval;
  message : pyval;
  replicaset : pyval
}.

(** The namedtuple constructor applied to an unpacked list: six
    positional arguments, else [TypeError]. *)
Definition ServerDescription_of_list (args : list pyval)
  : result ServerDescription :=
  match args with
  | [a; b; c; d; e; f] =>
      Ok {| uri := a; alias := b; status := c;
            uuid := d; message := e; replicaset := f |}
  | _ => Raise TypeError
  end.

Definition _asdict (s : ServerDescription) : list (string * pyval) :=
  [("uri", uri s); ("alias", alias s); ("status", status s);
   ("uuid", uuid s); ("message", message s); ("replicaset", replicaset s)].

(** ** The observable world *)

(** A request that left the process. *)
Inductive request : Type :=
| HttpGet (url : string) (timeout : Z)
| GraphqlPost (endpoint query : string)
              (variables : option (list (string * pyval))).

(** What was handed to [print]. *)
Inductive printed : Type :=
| PStr (s : string)
| PVal (v : pyval)
| PServer (s : ServerDescription)
| PServers (l : list ServerDescription)
| PColored (text color : string)
| PBytes (b : string).

Record world : Type := {
  net : list request;
  out : list printed
}.

Definition empty_world : world := {| net := []; out := [] |}.

Definition sent (r : request) (w : world) : world :=
  {| net := net w ++ [r]; out := out w |}.

Definition wrote (p : printed) (w : world) : world :=
  {| net := net w; out := out w ++ [p] |}.

(** How a GraphQL call fails: the server answers with an error status
    and a body, or no answer comes at all. *)
Inductive call_failure : Type :=
| HTTPError (reason body : string)
| Unreachable (reason : string).

(** The libraries and the cluster behind them.  An answer may depend on
    the requests made so far.  [inl] is a failure of the call. *)
Record Env : Type := {
  http_get : list request -> string -> Z -> string + Z;
  graphql_post : list request -> string -> string ->
                 option (list (string * pyval)) -> call_failure + string;
  loads : string -> option pyval
}.

(** A computation changes the world and returns a value or raises. *)
Definition M (A : Type) : Type := world -> result A * world.

#[export] Instance Monad_M : Monad M :=
  {| ret := fun _ a w => (Ok a, w);
     bind := fun _ _ c k w =>
       match c w with
       | (Ok a, w') => k a w'
       | (Raise e, w') => (Raise e, w')
       end |}.

Definition lift {A : Type} (r : result A) : M A := fun w => (r, w).

Definition raise {A : Type} (e : exc) : M A := fun w => (Raise e, w).

(** [assert cond] *)
Definition assert_ (cond : bool) : M unit :=
  if cond then ret tt else raise AssertionError.

Definition print (p : printed) : M unit := fun w => (Ok tt, wrote p w).

(** [exit(code)] raises [SystemExit]. *)
Definition exit (code : Z) : M unit := raise (SystemExit code).

(** The status the interpreter ends with: 0 when the script runs to its
    end, the code of [SystemExit], 1 for any other exception. *)
Definition exit_status (r : result unit) : Z :=
  match r with
  | Ok _ => 0
  | Raise (SystemExit code) => code
  | Raise _ => 1
  end.

(** ** [find] *)

Fixpoint find {A : Type} (predicate : A -> M bool) (seq : list A)
  (default : A) : M A :=
  match seq with
  | [] => ret default
  | s :: rest =>
      b <- predicate s ;;
      if b then ret s else find predicate rest default
  end.

(** ** [parse_server_description] *)

(** [kwdict[prop] if prop in kwdict else None] *)
Definition prop_or_none (kwdict : pyval) (prop : string) : result pyval :=
  py_if_else (py_getitem kwdict prop) (py_in prop kwdict) (Ok PyNone).

Definition parse_server_description (kwdict : pyval)
  : result ServerDescription :=
  args <- map_result (prop_or_none kwdict) __server_description_fields ;;
  ServerDescription_of_list args.

Definition servers_query : string :=
"
        query {
            serverList: servers {
                uuid
                alias
                uri
                status
                message
                replicaset {
                    uuid
                }
            }
        }
    ".

Definition cluster_query : string :=
"
        query {
            cluster {
                clusterSelf: self {
                    uri: uri
                    uuid: uuid
                }
                failover
                knownRoles: known_roles
                can_bootstrap_vshard
                vshard_bucket_count
            }
        }
    ".

Definition join_server_mutation : string :=
"
            mutation( $uri: String!, $roles: [String!] ) {
                createReplicasetResponse: join_server(
                    uri: $uri
                    roles: $roles
                )
            }
        ".

Record GraphQLClient : Type := { endpoint : string }.

(** ['http://{}/admin/api'.format(url)] *)
Definition api_endpoint (url : string) : string :=
  "http://" ++ url ++ "/admin/api".

Record Response : Type := { status_code : Z }.

Section Script.

Variable env : Env.

(** [requests.get(url, timeout=timeout)] *)
Definition requests_get (url : string) (timeout : Z) : M Response :=
  fun w =>
    match http_get env (net w) url timeout with
    | inr code => (Ok {| status_code := code |}, sent (HttpGet url timeout) w)
    | inl reason => (Raise (RequestException reason), sent (HttpGet url timeout) w)
    end.

(** [client.execute(query, variables)]. On an error status the client
    prints the body of the answer and an empty line, then raises the
    error again; [HTTPError] is a [URLError]. *)
Definition execute (client : GraphQLClient) (query : string)
  (variables : option (list (string * pyval))) : M string :=
  fun w =>
    let r := GraphqlPost (endpoint client) query variables in
    match graphql_post env (net w) (endpoint client) query variables with
    | inr text => (Ok text, sent r w)
    | inl (HTTPError reason body) =>
        (Raise (URLError reason),
         wrote (PStr "") (wrote (PBytes body) (sent r w)))
    | inl (Unreachable reason) => (Raise (URLError reason), sent r w)
    end.

(** [json.loads(text)] *)
Definition json_loads (text : string) : M pyval :=
  match loads env text with
  | Some v => ret v
  | None => raise (JSONDecodeError text)
  end.

Definition get_servers (url : string) : M (list ServerDescription) :=
  let client := {| endpoint := api_endpoint url |} in
  result <- execute client servers_query None ;;
  data <- json_loads result ;;
  servers <- lift (d <- py_getitem data "data" ;;
                   server_list <- py_getitem d "serverList" ;;
                   items <- py_iter server_list ;;
                   map_result parse_server_description items) ;;
  ret servers.

Definition get_cluster_info (url : string) : M pyval :=
  let client := {| endpoint := api_endpoint url |} in
  result <- execute client cluster_query None ;;
  data <- json_loads result ;;
  lift (d <- py_getitem data "data" ;; py_getitem d "cluster").

Definition assign_roles (url : string) (server_description : ServerDescription)
  (roles : list string) : M (bool * pyval) :=
  assert_ (list_truthy roles) ;;
  let client := {| endpoint := api_endpoint url |} in
  result <- execute client join_server_mutation
              (Some (dict_set (_asdict server_description)
                              "roles" (PyList (map PyStr roles)))) ;;
  data <- json_loads result ;;
  print (PVal data) ;;
  success <- lift (py_and (py_in "data" data)
                     (py_and (d <- py_getitem data "data" ;;
                              py_in "createReplicasetResponse" d)
                             (py_not_in "errors" data))) ;;
  ret (success, data).

(** The body run when the file is the main program.  [argv] is the
    command line the process was started with. *)
Definition main (argv : list string) : M unit :=
  let url := "127.0.0.1:8081" in
  ping <- requests_get ("http://" ++ url ++ "/") 10 ;;
  assert_ (status_code ping =? 200)%Z ;;
  servers <- get_servers url ;;
  print (PServers servers) ;;
  print (PStr (str_repeat "-" 72)) ;;
  assert_ (list_truthy servers) ;;
  cluster_info <- get_cluster_info url ;;
  bootstraped_uri <- lift (cluster_self <- py_getitem cluster_info "clusterSelf" ;;
                           py_getitem cluster_self "uri") ;;
  default <- lift (list_first servers) ;;
  key_value_server <-
    find (fun server => ret (py_eq (uri server) bootstraped_uri))
         servers default ;;
  print (PServer key_value_server) ;;
  assert_ true ;;
  known <- lift (known_roles <- py_getitem cluster_info "knownRoles" ;;
                 py_in "key-value" known_roles) ;;
  assert_ known ;;
  r <- assign_roles url key_value_server ["key-value"] ;;
  let '(success, responce) := r in
  if success then
    print (PColored "success" "green")
  else
    print (PColored "fail" "red") ;;
    print (PVal responce) ;;
    exit 1.

(** ** The stages of [main]

    The same statements, cut where the specification draws its
    components; [main_stages] below shows that [main] is their
    sequence. *)

(** The probe and the two queries. *)
Definition discovery (url : string) : M (list ServerDescription * pyval) :=
  ping <- requests_get ("http://" ++ url ++ "/") 10 ;;
  assert_ (status_code ping =? 200)%Z ;;
  servers <- get_servers url ;;
  print (PServers servers) ;;
  print (PStr (str_repeat "-" 72)) ;;
  assert_ (list_truthy servers) ;;
  cluster_info <- get_cluster_info url ;;
  ret (servers, cluster_info).

(** Reporting the outcome of [assign_roles]. *)
Definition report (r : bool * pyval) : M unit :=
  let '(success, responce) := r in
  if success then
    print (PColored "success" "green")
  else
    print (PColored "fail" "red") ;;
    print (PVal responce) ;;
    exit 1.

(** The check of the role and the assignment. *)
Definition role_assignment (url : string) (cluster_info : pyval)
  (key_value_server : ServerDescription) : M unit :=
  known <- lift (known_roles <- py_getitem cluster_info "knownRoles" ;;
                 py_in "key-value" known_roles) ;;
  assert_ known ;;
  r <- assign_roles url key_value_server ["key-value"] ;;
  report r.

End Script.

(** The choice of the server to join: the one the cluster calls itself,
    else the first. *)
Definition key_value_server_selection (servers : list ServerDescription)
  (cluster_info : pyval) : M ServerDescription :=
  bootstraped_uri <- lift (cluster_self <- py_getitem cluster_info "clusterSelf" ;;
                           py_getitem cluster_self "uri") ;;
  default <- lift (list_first servers) ;;
  find (fun server => ret (py_eq (uri server) bootstraped_uri))
       servers default.

(** ** What the specification says, in its own words *)

(** The envelope is an object that has the field. *)
Definition has_field (envelope : pyval) (field : string) : bool :=
  match envelope with
  | PyDict d => dict_has d field
  | _ => false
  end.

(** "The envelope contains [data] with the expected mutation-result key
    present and no [errors] field." *)
Definition spec_success (result_key : string) (envelope : pyval) : bool :=
  has_field envelope "data"
  && match py_getitem envelope "data" with
     | Ok d => has_field d result_key
     | Raise _ => false
     end
  && negb (has_field envelope "errors").

(** "One optional positional argument [host:port]", else a default. *)
Definition spec_target (argv : list string) (default : string) : string :=
  match argv with
  | _ :: host_port :: _ => host_port
  | _ => default
  end.

(** The request [assign_roles] sends. *)
Definition join_request (url : string) (s : ServerDescription)
  (roles : list string) : request :=
  GraphqlPost (api_endpoint url) join_server_mutation
    (Some (dict_set (_asdict s) "roles" (PyList (map PyStr roles)))).

Definition servers_request (url : string) : request :=
  GraphqlPost (api_endpoint url) servers_query None.

Definition cluster_request (url : string) : request :=
  GraphqlPost (api_endpoint url) cluster_query None.

(** The test [assign_roles] applies to the parsed answer. *)
Definition classification (data : pyval) : result bool :=
  py_and (py_in "data" data)
    (py_and (d <- py_getitem data "data" ;;
             py_in "createReplicasetResponse" d)
            (py_not_in "errors" data)).

(** The world after the mutation was answered and the answer printed. *)
Definition answered (url : string) (server : ServerDescription)
  (roles : list string) (w : world) (data : pyval) : world :=
  wrote (PVal data) (sent (join_request url server roles) w).

(** The test of the role: ['key-value' in cluster_info['knownRoles']]. *)
Definition role_known (cluster_info : pyval) : result bool :=
  known_roles <- py_getitem cluster_info "knownRoles" ;;
  py_in "key-value" known_roles.

(** A run of [main] from [w0] reached [assign_roles], which returned
    [(success, data)] and left the world [w2]. *)
Definition assignment_made (env : Env) (w0 : world) (success : bool)
  (data : pyval) (w2 : world) : Prop :=
  exists servers cluster_info w1 key_value_server,
    discovery env "127.0.0.1:8081" w0 = (Ok (servers, cluster_info), w1)
    /\ key_value_server_selection servers cluster_info w1
       = (Ok key_value_server, w1)
    /\ role_known cluster_info = Ok true
    /\ assign_roles env "127.0.0.1:8081" key_value_server ["key-value"]
         (wrote (PServer key_value_server) w1)
       = (Ok (success, data), w2).

(** ** Classes of values and of exceptions *)

(** Values on which [in] does not raise. *)
Definition membership_defined (v : pyval) : bool :=
  match v with
  | PyDict _ | PyList _ | PyStr _ => true
  | _ => false
  end.

(** Raised by a subscription, a membership test or an iteration. *)
Definition value_error (e : exc) : bool :=
  match e with
  | KeyError _ | TypeError => true
  | _ => false
  end.

(** Raised on what the cluster answered, or failed to answer. *)
Definition from_data (e : exc) : bool :=
  match e with
  | KeyError _ | TypeError
  | URLError _ | RequestException _ | JSONDecodeError _ => true
  | _ => false
  end.

(** What the client prints when a call ends as [answer]. *)
Definition printed_by_client (answer : call_failure + string) : list printed :=
  match answer with
  | inl (HTTPError _ body) => [PBytes body; PStr ""]
  | _ => []
  end.

(** ** Descriptions read from an object *)

(** The value an object holds under a name, [None] when it holds none. *)
Definition field_or_none (d : list (string * pyval)) (name : string) : pyval :=
  match dict_get d name with
  | Some v => v
  | None => PyNone
  end.

(** The description with every field unset. *)
Definition no_fields : ServerDescription :=
  {| uri := PyNone; alias := PyNone; status := PyNone;
     uuid := PyNone; message := PyNone; replicaset := PyNone |}.

(** The requests of a complete run of [main], in the order they are
    sent. *)
Definition main_requests (url : string) (key_value_server : ServerDescription)
  : list request :=
  [HttpGet ("http://" ++ url ++ "/") 10;
   servers_request url;
   cluster_request url;
   join_request url key_value_server ["key-value"]].

(** ** Sample clusters *)

Module Sample.

Definition node (u : string) : ServerDescription :=
  {| uri := PyStr u; alias := PyNone; status := PyNone;
     uuid := PyNone; message := PyNone; replicaset := PyNone |}.

Definition node_json (u : string) : pyval := PyDict [("uri", PyStr u)].

Definition servers_answer (uris : list string) : pyval :=
  PyDict [("data", PyDict [("serverList", PyList (map node_json uris))])].

Definition cluster_answer (self : string) (roles : list string) : pyval :=
  PyDict [("data",
           PyDict [("cluster",
                    PyDict [("clusterSelf", PyDict [("uri", PyStr self)]);
                            ("knownRoles", PyList (map PyStr roles))])])].

Definition cluster_state (self : string) (roles : list string) : pyval :=
  PyDict [("clusterSelf", PyDict [("uri", PyStr self)]);
          ("knownRoles", PyList (map PyStr roles))].

(** A cluster that answers the probe with [code] and each operation with
    a fixed document.  The bodies are opaque to the script, so they are
    named rather than spelled out. *)
Definition cluster (code : Z) (servers cluster_info join : pyval) : Env :=
  {| http_get := fun _ _ _ => inr code;
     graphql_post := fun _ _ query _ =>
       if String.eqb query servers_query then inr "servers.json"
       else if String.eqb query cluster_query then inr "cluster.json"
       else inr "join.json";
     loads := fun text =>
       if String.eqb text "servers.json" then Some servers
       else if String.eqb text "cluster.json" then Some cluster_info
       else if String.eqb text "join.json" then Some join
       else None |}.

Definition two_nodes (self : string) (roles : list string) (join : pyval) : Env :=
  cluster 200 (servers_answer ["a:1"; "b:2"]) (cluster_answer self roles) join.

Definition joined : pyval :=
  PyDict [("data", PyDict [("createReplicasetResponse", PyBool true)])].

Definition join_server_true : pyval :=
  PyDict [("data", PyDict [("join_server", PyBool true)])].

Definition refused : pyval :=
  PyDict [("data", PyDict [("createReplicasetResponse", PyBool false)]);
          ("errors", PyList [PyDict [("message", PyStr "refused")]])].

Definition null_data : pyval :=
  PyDict [("data", PyNone);
          ("errors", PyList [PyDict [("message", PyStr "refused")]])].

Definition only_errors : pyval :=
  PyDict [("errors", PyList [PyDict [("message", PyStr "refused")]])].

Definition empty_data : pyval := PyDict [("data", PyDict [])].

(** A cluster that cannot be reached for GraphQL, or whose answers are
    not JSON. *)
Definition unreachable : Env :=
  {| http_get := fun _ _ _ => inr 200%Z;
     graphql_post := fun _ _ _ _ => inl (Unreachable "connection refused");
     loads := fun _ => None |}.

Definition garbled : Env :=
  {| http_get := fun _ _ _ => inr 200%Z;
     graphql_post := fun _ _ _ _ => inr "<html>";
     loads := fun _ => None |}.

(** A cluster that answers every GraphQL call with an error status. *)
Definition failing : Env :=
  {| http_get := fun _ _ _ => inr 200%Z;
     graphql_post := fun _ _ _ _ =>
       inl (HTTPError "HTTP Error 500: Internal Server Error" "boom");
     loads := fun _ => None |}.

(** A probe that fails before any answer. *)
Definition no_route : Env :=
  {| http_get := fun _ _ _ => inl "no route to host";
     graphql_post := fun _ _ _ _ => inl (Unreachable "no route to host");
     loads := fun _ => None |}.

End Sample.

(* ===================================================================== *)
(** * Properties *)
(* ===================================================================== *)

(** Unfold the plumbing of the two monads, and nothing else. *)
Ltac run :=
  cbn [bind ret Monad_M Monad_result lift raise assert_ print exit
       endpoint status_code fst snd].

(** ** [assign_roles] *)

Section AssignRoles.

Variable env : Env.
Variables (url : string) (server : ServerDescription) (roles : list string).
Variable w : world.

(** Once the answer is parsed, the call sends one request, prints the
    answer and returns it next to the outcome of [classification]. *)
Lemma assign_roles_run (text : string) (data : pyval) :
  list_truthy roles = true ->
  graphql_post env (net w) (api_endpoint url) join_server_mutation
    (Some (dict_set (_asdict server) "roles" (PyList (map PyStr roles))))
    = inr text ->
  loads env text = Some data ->
  assign_roles env url server roles w =
  (match classification data with
   | Ok success => Ok (success, data)
   | Raise e => Raise e
   end, answered url server roles w data).
Proof.
  intros Hroles Hpost Hloads.
  unfold assign_roles, answered, join_request.
  rewrite Hroles.
  run. unfold execute. run. rewrite Hpost. run.
  unfold json_loads. rewrite Hloads. run.
  unfold classification. run.
  destruct (py_and _ _); reflexivity.
Qed.

End AssignRoles.

(** [classification] on an object. *)
Lemma classification_object (fields : list (string * pyval)) :
  classification (PyDict fields) =
  match dict_get fields "data" with
  | None => Ok false
  | Some d =>
      match py_in "createReplicasetResponse" d with
      | Ok true => Ok (negb (dict_has fields "errors"))
      | Ok false => Ok false
      | Raise e => Raise e
      end
  end.
Proof.
  unfold classification, py_and, py_not_in. cbn. unfold dict_has.
  destruct (dict_get fields "data") as [d|]; cbn; [|reflexivity].
  destruct (py_in "createReplicasetResponse" d) as [[|]|]; cbn; try reflexivity.
Qed.

(** An answer that is not an object is never classified as a success. *)
Lemma classification_not_object (data : pyval) :
  classification data = Ok true -> exists fields, data = PyDict fields.
Proof.
  destruct data as [| | | |s|l|d]; unfold classification, py_and; cbn;
    try discriminate.
  - destruct (str_contains s "data"); cbn; discriminate.
  - destruct (existsb _ l); cbn; discriminate.
  - eauto.
Qed.

Lemma py_in_object (key : string) (d : list (string * pyval)) :
  py_in key (PyDict d) = Ok (dict_has d key).
Proof. reflexivity. Qed.

Lemma py_in_defined (key : string) (v : pyval) :
  membership_defined v = true -> exists b, py_in key v = Ok b.
Proof. destruct v; cbn; try discriminate; eauto. Qed.

(** C1, as amended. For every parsed answer to the mutation,
    [assign_roles] classifies it as a success if and only if it is an
    object with a [data] field, the membership test finds the key
    [createReplicasetResponse] (the alias the mutation gives to
    [join_server]) in the value of [data], and it has no [errors] field.
    When [data], if present, is an object, this is the condition of the
    specification read with that key. *)
Theorem assign_roles_success_iff
  (env : Env) (url : string) (server : ServerDescription)
  (roles : list string) (w : world) (text : string) (data : pyval) :
  list_truthy roles = true ->
  graphql_post env (net w) (api_endpoint url) join_server_mutation
    (Some (dict_set (_asdict server) "roles" (PyList (map PyStr roles))))
    = inr text ->
  loads env text = Some data ->
  (fst (assign_roles env url server roles w) = Ok (true, data)
   <-> exists fields d,
         data = PyDict fields
         /\ dict_get fields "data" = Some d
         /\ py_in "createReplicasetResponse" d = Ok true
         /\ dict_get fields "errors" = None)
  /\ ((forall d, py_getitem data "data" = Ok d -> exists dd, d = PyDict dd) ->
      (fst (assign_roles env url server roles w) = Ok (true, data)
       <-> spec_success "createReplicasetResponse" data = true)).
Proof.
  intros Hroles Hpost Hloads.
  rewrite (assign_roles_run env url server roles w text _ Hroles Hpost Hloads).
  cbn [fst].
  assert (Hc : match classification data with
               | Ok success => Ok (success, data)
               | Raise e => Raise e
               end = Ok (true, data)
               <-> classification data = Ok true).
  { destruct (classification data) as [[|]|]; split; congruence. }
  split; [split | intros Hobj; split].
  - intros H. apply Hc in H.
    destruct (classification_not_object _ H) as [fields ->].
    rewrite classification_object in H.
    destruct (dict_get fields "data") as [d|] eqn:Hd; [|discriminate].
    destruct (py_in "createReplicasetResponse" d) as [[|]|] eqn:Hin;
      try discriminate.
    exists fields, d. repeat split; auto.
    unfold dict_has in H.
    destruct (dict_get fields "errors"); [discriminate | reflexivity].
  - intros (fields & d & -> & Hd & Hin & He). apply Hc.
    rewrite classification_object, Hd, Hin. unfold dict_has. now rewrite He.
  - intros H. apply Hc in H.
    destruct (classification_not_object _ H) as [fields ->].
    rewrite classification_object in H.
    unfold spec_success, has_field, dict_has in *. cbn [py_getitem] in *.
    destruct (dict_get fields "data") as [d|] eqn:Hd; [|discriminate].
    destruct (Hobj d eq_refl) as [dd ->].
    rewrite py_in_object in H. unfold dict_has in H.
    destruct (dict_get dd "createReplicasetResponse");
      destruct (dict_get fields "errors"); cbn in *; congruence.
  - intros H. apply Hc. unfold spec_success in H.
    destruct data as [| | | | | |fields]; cbn [has_field] in H;
      try discriminate.
    rewrite classification_object.
    unfold dict_has in *. cbn [py_getitem] in *.
    destruct (dict_get fields "data") as [d|] eqn:Hd; [|discriminate].
    destruct (Hobj d eq_refl) as [dd ->].
    rewrite py_in_object. unfold has_field, dict_has in *.
    destruct (dict_get dd "createReplicasetResponse");
      destruct (dict_get fields "errors"); cbn in *; congruence.
Qed.

(** The answer [{"data": {"createReplicasetResponse": true}}] is a
    success. *)
Lemma assign_roles_success_iff_witness :
  fst (assign_roles (Sample.two_nodes "b:2" ["key-value"] Sample.joined)
         "127.0.0.1:8081" (Sample.node "b:2") ["key-value"] empty_world)
  = Ok (true, Sample.joined).
Proof.
  apply (proj1 (assign_roles_success_iff
                  (Sample.two_nodes "b:2" ["key-value"] Sample.joined)
                  "127.0.0.1:8081" (Sample.node "b:2") ["key-value"]
                  empty_world "join.json" Sample.joined
                  eq_refl eq_refl eq_refl)).
  exists [("data", PyDict [("createReplicasetResponse", PyBool true)])],
         (PyDict [("createReplicasetResponse", PyBool true)]).
  repeat split.
Defined.

(** C1, as stated, fails. The answer [{"data": {"join_server": true}}]
    meets the condition read with the key [join_server], and
    [assign_roles] classifies it as a failure. *)
Lemma assign_roles_join_server_key_not_success :
  spec_success "join_server" Sample.join_server_true = true
  /\ fst (assign_roles
            (Sample.two_nodes "b:2" ["key-value"] Sample.join_server_true)
            "127.0.0.1:8081" (Sample.node "b:2") ["key-value"] empty_world)
     = Ok (false, Sample.join_server_true).
Proof. split; vm_compute; reflexivity. Qed.

(** Where the membership test is defined, that is for every answer that
    is an object whose [data] field, when present, is an object, a list
    or a string, [assign_roles] returns the answer itself next to the
    classification; when the answer has an [errors] field the
    classification is a failure. *)
Theorem assign_roles_returns_envelope
  (env : Env) (url : string) (server : ServerDescription)
  (roles : list string) (w : world) (text : string)
  (fields : list (string * pyval)) :
  list_truthy roles = true ->
  graphql_post env (net w) (api_endpoint url) join_server_mutation
    (Some (dict_set (_asdict server) "roles" (PyList (map PyStr roles))))
    = inr text ->
  loads env text = Some (PyDict fields) ->
  (forall d, dict_get fields "data" = Some d -> membership_defined d = true) ->
  exists success,
    assign_roles env url server roles w
    = (Ok (success, PyDict fields), answered url server roles w (PyDict fields))
    /\ (dict_has fields "errors" = true -> success = false).
Proof.
  intros Hroles Hpost Hloads Hdata.
  rewrite (assign_roles_run env url server roles w text _ Hroles Hpost Hloads).
  rewrite classification_object.
  destruct (dict_get fields "data") as [d|].
  - destruct (py_in_defined "createReplicasetResponse" d (Hdata d eq_refl))
      as [[|] ->].
    + eexists; split; [reflexivity|]. intros ->. reflexivity.
    + eexists; split; [reflexivity|]. reflexivity.
  - eexists; split; [reflexivity|]. reflexivity.
Qed.

(** The answer [{"data": {"createReplicasetResponse": false},
    "errors": [...]}] comes back unchanged, as a failure. *)
Lemma assign_roles_returns_envelope_witness :
  fst (assign_roles (Sample.two_nodes "b:2" ["key-value"] Sample.refused)
         "127.0.0.1:8081" (Sample.node "b:2") ["key-value"] empty_world)
  = Ok (false, Sample.refused).
Proof.
  destruct (assign_roles_returns_envelope
              (Sample.two_nodes "b:2" ["key-value"] Sample.refused)
              "127.0.0.1:8081" (Sample.node "b:2") ["key-value"]
              empty_world "join.json"
              [("data", PyDict [("createReplicasetResponse", PyBool false)]);
               ("errors", PyList [PyDict [("message", PyStr "refused")]])]
              eq_refl eq_refl eq_refl)
    as [success [Hrun Herrors]].
  - intros d Hd. injection Hd as <-. reflexivity.
  - rewrite Hrun. cbn [fst]. rewrite (Herrors eq_refl). reflexivity.
Defined.

(** C2. The answer [{"data": null, "errors": [...]}], the form a failed
    mutation takes, has an [errors] field; [assign_roles] ought to return
    it unchanged as a failure, as it does for an answer without [data]
    or without the key. It raises [TypeError] instead and returns
    nothing: the membership test on [data['data']] comes before the test
    for [errors]. *)
Lemma assign_roles_null_data_raises :
  has_field Sample.null_data "errors" = true
  /\ fst (assign_roles (Sample.two_nodes "b:2" ["key-value"] Sample.null_data)
            "127.0.0.1:8081" (Sample.node "b:2") ["key-value"] empty_world)
     = Raise TypeError.
Proof. split; vm_compute; reflexivity. Qed.

(** C6. With no role, [assign_roles] fails on its assertion and leaves
    the world as it was: no request was sent, nothing was printed. The
    failure is not the one of a transport. *)
Theorem assign_roles_empty_roles
  (env : Env) (url : string) (server : ServerDescription) (w : world) :
  assign_roles env url server [] w = (Raise AssertionError, w)
  /\ forall reason,
       fst (assign_roles env url server [] w) <> Raise (URLError reason).
Proof.
  split; [reflexivity|]. intros reason. cbn. discriminate.
Qed.

(** C9. The value bound to [createReplicasetResponse] plays no part: an
    answer without [errors] whose [data] is an object holding the key is
    a success whatever the value. *)
Theorem assign_roles_ignores_value
  (env : Env) (url : string) (server : ServerDescription)
  (roles : list string) (w : world) (text : string)
  (fields dd : list (string * pyval)) (v : pyval) :
  list_truthy roles = true ->
  graphql_post env (net w) (api_endpoint url) join_server_mutation
    (Some (dict_set (_asdict server) "roles" (PyList (map PyStr roles))))
    = inr text ->
  loads env text = Some (PyDict fields) ->
  dict_get fields "data" = Some (PyDict dd) ->
  dict_get dd "createReplicasetResponse" = Some v ->
  dict_get fields "errors" = None ->
  fst (assign_roles env url server roles w) = Ok (true, PyDict fields).
Proof.
  intros Hroles Hpost Hloads Hdata Hkey Herrors.
  rewrite (assign_roles_run env url server roles w text _ Hroles Hpost Hloads).
  rewrite classification_object, Hdata, py_in_object.
  unfold dict_has. rewrite Hkey, Herrors. reflexivity.
Qed.

(** The answer [{"data": {"createReplicasetResponse": false}}] is a
    success. *)
Lemma assign_roles_ignores_value_witness :
  let answer :=
    PyDict [("data", PyDict [("createReplicasetResponse", PyBool false)])] in
  fst (assign_roles (Sample.two_nodes "b:2" ["key-value"] answer)
         "127.0.0.1:8081" (Sample.node "b:2") ["key-value"] empty_world)
  = Ok (true, answer).
Proof.
  exact (assign_roles_ignores_value
           (Sample.two_nodes "b:2" ["key-value"]
              (PyDict [("data",
                        PyDict [("createReplicasetResponse", PyBool false)])]))
           "127.0.0.1:8081" (Sample.node "b:2") ["key-value"]
           empty_world "join.json" _ _ (PyBool false)
           eq_refl eq_refl eq_refl eq_refl eq_refl eq_refl).
Defined.

(** ** [find] and the choice of the server *)

Lemma find_pure {A : Type} (p : A -> bool) (seq : list A) (default : A)
  (w : world) :
  find (fun s => ret (p s)) seq default w =
  (Ok (match List.find p seq with Some s => s | None => default end), w).
Proof.
  induction seq as [|s rest IH]; [reflexivity|].
  cbn [find List.find]. run.
  destruct (p s); [reflexivity | exact IH].
Qed.

Lemma find_first_match {A : Type} (p : A -> bool) (before after : list A)
  (m : A) :
  p m = true -> (forall x, In x before -> p x = false) ->
  List.find p (before ++ m :: after) = Some m.
Proof.
  intros Hm. induction before as [|x before IH]; intros Hbefore; cbn.
  - now rewrite Hm.
  - rewrite (Hbefore x (or_introl eq_refl)).
    apply IH. intros y Hy. apply Hbefore. now right.
Qed.

Lemma find_no_match {A : Type} (p : A -> bool) (l : list A) :
  (forall x, In x l -> p x = false) -> List.find p l = None.
Proof.
  induction l as [|x l IH]; intros Hl; cbn; [reflexivity|].
  rewrite (Hl x (or_introl eq_refl)). apply IH.
  intros y Hy. apply Hl. now right.
Qed.

(** [==] against a string holds for that string only. *)
Lemma py_eq_str (a : pyval) (s : string) :
  py_eq a (PyStr s) = true <-> a = PyStr s.
Proof.
  destruct a; cbn; split; try discriminate.
  - intros H. apply String.eqb_eq in H. now subst.
  - intros H. injection H as ->. apply String.eqb_refl.
Qed.

Lemma py_eq_str_false (a : pyval) (s : string) :
  a <> PyStr s -> py_eq a (PyStr s) = false.
Proof.
  intros H. destruct (py_eq a (PyStr s)) eqn:E; [|reflexivity].
  apply py_eq_str in E. contradiction.
Qed.

(** C3. For a non-empty sequence of servers and a cluster state whose
    own uri is a string, the selection returns a server and leaves the
    world alone; the server is the first of the sequence whose [uri] is
    the cluster's own, and the head of the sequence when no server has
    that [uri]. *)
Theorem selection_first_match_or_head
  (servers : list ServerDescription) (cluster_info cluster_self : pyval)
  (self_uri : string) (w : world) :
  list_truthy servers = true ->
  py_getitem cluster_info "clusterSelf" = Ok cluster_self ->
  py_getitem cluster_self "uri" = Ok (PyStr self_uri) ->
  exists node,
    key_value_server_selection servers cluster_info w = (Ok node, w)
    /\ (forall before m after,
          servers = before ++ m :: after ->
          uri m = PyStr self_uri ->
          (forall x, In x before -> uri x <> PyStr self_uri) ->
          node = m)
    /\ ((forall x, In x servers -> uri x <> PyStr self_uri) ->
        List.head servers = Some node).
Proof.
  intros Hservers Hself Huri.
  destruct servers as [|first rest]; [discriminate|].
  unfold key_value_server_selection. run.
  rewrite Hself. run. rewrite Huri. cbn [list_first].
  rewrite (find_pure (fun server => py_eq (uri server) (PyStr self_uri))).
  eexists; split; [reflexivity|]. split.
  - intros before m after -> Hm Hbefore.
    rewrite (find_first_match _ before after m); [reflexivity| |].
    + now apply py_eq_str.
    + intros x Hx. apply py_eq_str_false. now apply Hbefore.
  - intros Hnone. rewrite find_no_match; [reflexivity|].
    intros x Hx. apply py_eq_str_false. now apply Hnone.
Qed.

(** With the servers [a:1] and [b:2] and a cluster that calls itself
    [c:3], the server [a:1] is selected. *)
Lemma selection_first_match_or_head_witness :
  fst (key_value_server_selection [Sample.node "a:1"; Sample.node "b:2"]
         (Sample.cluster_state "c:3" ["key-value"]) empty_world)
  = Ok (Sample.node "a:1").
Proof.
  destruct (selection_first_match_or_head
              [Sample.node "a:1"; Sample.node "b:2"]
              (Sample.cluster_state "c:3" ["key-value"])
              (PyDict [("uri", PyStr "c:3")]) "c:3" empty_world
              eq_refl eq_refl eq_refl)
    as [node [Hrun [_ Hhead]]].
  rewrite Hrun. cbn [fst].
  assert (Hnone : forall x, In x [Sample.node "a:1"; Sample.node "b:2"] ->
                            uri x <> PyStr "c:3").
  { intros x [<-|[<-|[]]]; discriminate. }
  specialize (Hhead Hnone). injection Hhead as <-. reflexivity.
Defined.

(** C4. The selection is a function of the servers and the cluster
    state alone: it leaves the world as it found it, and two runs on the
    same pair end alike in whatever worlds they start. *)
Theorem selection_deterministic
  (servers : list ServerDescription) (cluster_info : pyval) (w1 w2 : world) :
  fst (key_value_server_selection servers cluster_info w1)
  = fst (key_value_server_selection servers cluster_info w2)
  /\ snd (key_value_server_selection servers cluster_info w1) = w1.
Proof.
  unfold key_value_server_selection. run.
  destruct (py_getitem cluster_info "clusterSelf") as [cluster_self|];
    [|split; reflexivity].
  run. destruct (py_getitem cluster_self "uri") as [bootstraped_uri|];
    [|split; reflexivity].
  destruct servers as [|first rest]; [split; reflexivity|].
  cbn [list_first].
  rewrite !(find_pure (fun server => py_eq (uri server) bootstraped_uri)).
  split; reflexivity.
Qed.

(** ** The queries *)

(** C7. When the answer to a query is an object without a [data] field,
    [get_servers] and [get_cluster_info] fail on the subscription
    [data['data']], with [KeyError] on [data]; neither returns a value. *)
Theorem queries_without_data
  (env : Env) (url : string) (w : world) (text : string)
  (fields : list (string * pyval)) :
  loads env text = Some (PyDict fields) ->
  dict_get fields "data" = None ->
  (graphql_post env (net w) (api_endpoint url) servers_query None = inr text ->
   get_servers env url w
   = (Raise (KeyError "data"), sent (servers_request url) w))
  /\ (graphql_post env (net w) (api_endpoint url) cluster_query None = inr text ->
      get_cluster_info env url w
      = (Raise (KeyError "data"), sent (cluster_request url) w)).
Proof.
  intros Hloads Hdata. split; intros Hpost.
  - unfold get_servers, execute, json_loads. run.
    rewrite Hpost. run. rewrite Hloads. run.
    cbn [py_getitem]. rewrite Hdata. reflexivity.
  - unfold get_cluster_info, execute, json_loads. run.
    rewrite Hpost. run. rewrite Hloads. run.
    cbn [py_getitem]. rewrite Hdata. reflexivity.
Qed.

(** A cluster that answers every query with [{"errors": [...]}]. *)
Lemma queries_without_data_witness :
  let env := Sample.cluster 200 Sample.only_errors Sample.only_errors
               Sample.joined in
  fst (get_servers env "127.0.0.1:8081" empty_world) = Raise (KeyError "data")
  /\ fst (get_cluster_info env "127.0.0.1:8081" empty_world)
     = Raise (KeyError "data").
Proof.
  destruct (queries_without_data
              (Sample.cluster 200 Sample.only_errors Sample.only_errors
                 Sample.joined)
              "127.0.0.1:8081" empty_world "servers.json"
              [("errors", PyList [PyDict [("message", PyStr "refused")]])]
              eq_refl eq_refl) as [Hservers _].
  destruct (queries_without_data
              (Sample.cluster 200 Sample.only_errors Sample.only_errors
                 Sample.joined)
              "127.0.0.1:8081" empty_world "cluster.json"
              [("errors", PyList [PyDict [("message", PyStr "refused")]])]
              eq_refl eq_refl) as [_ Hcluster].
  cbv zeta. rewrite (Hservers eq_refl), (Hcluster eq_refl). split; reflexivity.
Defined.

(** ** Which exceptions can be raised, and where *)

Lemma value_error_from_data (e : exc) : value_error e = true -> from_data e = true.
Proof. destruct e; cbn; congruence. Qed.

Lemma py_getitem_raises (v : pyval) (k : string) (e : exc) :
  py_getitem v k = Raise e -> value_error e = true.
Proof.
  destruct v as [| | | | | |d]; cbn; try (intros [= <-]; reflexivity).
  destruct (dict_get d k); intros [= <-]; reflexivity.
Qed.

Lemma py_in_raises (k : string) (v : pyval) (e : exc) :
  py_in k v = Raise e -> value_error e = true.
Proof. destruct v; cbn; intros [= <-]; reflexivity. Qed.

Lemma py_iter_raises (v : pyval) (e : exc) :
  py_iter v = Raise e -> value_error e = true.
Proof. destruct v; cbn; intros [= <-]; reflexivity. Qed.

Lemma map_result_raises {A B : Type} (P : exc -> Prop) (f : A -> result B)
  (l : list A) (e : exc) :
  (forall x e', f x = Raise e' -> P e') ->
  map_result f l = Raise e -> P e.
Proof.
  intros Hf. induction l as [|x l IH]; cbn [map_result]; [discriminate|].
  run. destruct (f x) eqn:Hx.
  - destruct (map_result f l); [discriminate|].
    intros [= <-]. now apply IH.
  - intros [= <-]. now apply (Hf x).
Qed.

Lemma prop_or_none_raises (kwdict : pyval) (prop : string) (e : exc) :
  prop_or_none kwdict prop = Raise e -> value_error e = true.
Proof.
  unfold prop_or_none, py_if_else. run.
  destruct (py_in prop kwdict) as [[|]|] eqn:Hin.
  - apply py_getitem_raises.
  - discriminate.
  - intros [= <-]. now apply py_in_raises in Hin.
Qed.

Lemma parse_server_description_raises (kwdict : pyval) (e : exc) :
  parse_server_description kwdict = Raise e -> value_error e = true.
Proof.
  unfold parse_server_description. run.
  destruct (map_result _ _) as [args|e'] eqn:Hargs.
  - unfold ServerDescription_of_list.
    destruct args as [|? [|? [|? [|? [|? [|? [|? ?]]]]]]];
      intros [= <-]; reflexivity.
  - intros [= <-].
    apply (map_result_raises _ _ _ _ (prop_or_none_raises kwdict) Hargs).
Qed.

(** [get_servers] sends its query and either returns or raises on what
    came back; when it returns, nothing was printed. *)
Lemma get_servers_run (env : Env) (url : string) (w : world) :
  exists r w',
    get_servers env url w = (r, w')
    /\ net w' = net w ++ [servers_request url]
    /\ (forall e, r = Raise e -> from_data e = true)
    /\ (forall servers, r = Ok servers -> w' = sent (servers_request url) w).
Proof.
  unfold get_servers, execute, json_loads, servers_request. run.
  destruct (graphql_post _ _ _ _ _) as [[reason body|reason]|text];
    try (do 2 eexists; split; [reflexivity|]; split; [reflexivity|];
         split; [intros e [= <-]; reflexivity | discriminate]).
  run. destruct (loads env text) as [data|].
  2:{ do 2 eexists; split; [reflexivity|]. split; [reflexivity|].
      split; [intros e [= <-]; reflexivity | discriminate]. }
  run. destruct (py_getitem data "data") as [d|e1] eqn:H1.
  2:{ do 2 eexists; split; [reflexivity|]. split; [reflexivity|].
      split; [|discriminate]. intros e [= <-].
      apply value_error_from_data. now apply py_getitem_raises in H1. }
  run. destruct (py_getitem d "serverList") as [sl|e2] eqn:H2.
  2:{ do 2 eexists; split; [reflexivity|]. split; [reflexivity|].
      split; [|discriminate]. intros e [= <-].
      apply value_error_from_data. now apply py_getitem_raises in H2. }
  run. destruct (py_iter sl) as [items|e3] eqn:H3.
  2:{ do 2 eexists; split; [reflexivity|]. split; [reflexivity|].
      split; [|discriminate]. intros e [= <-].
      apply value_error_from_data. now apply py_iter_raises in H3. }
  run. destruct (map_result parse_server_description items) as [servers|e4] eqn:H4.
  - do 2 eexists; split; [reflexivity|]. split; [reflexivity|].
    split; [discriminate | reflexivity].
  - do 2 eexists; split; [reflexivity|]. split; [reflexivity|].
    split; [|discriminate]. intros e [= <-].
    apply value_error_from_data.
    apply (map_result_raises _ _ _ _ parse_server_description_raises H4).
Qed.

Lemma get_cluster_info_run (env : Env) (url : string) (w : world) :
  exists r w',
    get_cluster_info env url w = (r, w')
    /\ net w' = net w ++ [cluster_request url]
    /\ (forall e, r = Raise e -> from_data e = true)
    /\ (forall cluster_info,
          r = Ok cluster_info -> w' = sent (cluster_request url) w).
Proof.
  unfold get_cluster_info, execute, json_loads, cluster_request. run.
  destruct (graphql_post _ _ _ _ _) as [[reason body|reason]|text];
    try (do 2 eexists; split; [reflexivity|]; split; [reflexivity|];
         split; [intros e [= <-]; reflexivity | discriminate]).
  run. destruct (loads env text) as [data|].
  2:{ do 2 eexists; split; [reflexivity|]. split; [reflexivity|].
      split; [intros e [= <-]; reflexivity | discriminate]. }
  run. destruct (py_getitem data "data") as [d|e1] eqn:H1.
  2:{ do 2 eexists; split; [reflexivity|]. split; [reflexivity|].
      split; [|discriminate]. intros e [= <-].
      apply value_error_from_data. now apply py_getitem_raises in H1. }
  run. destruct (py_getitem d "cluster") as [c|e2] eqn:H2.
  - do 2 eexists; split; [reflexivity|]. split; [reflexivity|].
    split; [discriminate | reflexivity].
  - do 2 eexists; split; [reflexivity|]. split; [reflexivity|].
    split; [|discriminate]. intros e [= <-].
    apply value_error_from_data. now apply py_getitem_raises in H2.
Qed.

Lemma classification_raises (data : pyval) (e : exc) :
  classification data = Raise e -> value_error e = true.
Proof.
  unfold classification, py_and, py_not_in. run.
  destruct (py_in "data" data) as [[|]|] eqn:H1.
  - destruct (py_getitem data "data") as [d|] eqn:H2.
    + destruct (py_in "createReplicasetResponse" d) as [[|]|] eqn:H3.
      * destruct (py_in "errors" data) eqn:H4; [discriminate|].
        intros [= <-]. now apply py_in_raises in H4.
      * discriminate.
      * intros [= <-]. now apply py_in_raises in H3.
    + intros [= <-]. now apply py_getitem_raises in H2.
  - discriminate.
  - intros [= <-]. now apply py_in_raises in H1.
Qed.

(** [assign_roles] with a role: one request; a returned pair holds the
    parsed answer and its classification; an exception comes from the
    answer. *)
Lemma assign_roles_inv (env : Env) (url : string) (server : ServerDescription)
  (roles : list string) (w w' : world) (r : result (bool * pyval)) :
  list_truthy roles = true ->
  assign_roles env url server roles w = (r, w') ->
  net w' = net w ++ [join_request url server roles]
  /\ match r with
     | Ok (success, data) =>
         w' = answered url server roles w data
         /\ classification data = Ok success
     | Raise e => from_data e = true
     end.
Proof.
  intros Hroles. unfold assign_roles, execute, json_loads.
  rewrite Hroles. run.
  destruct (graphql_post _ _ _ _ _) as [[reason body|reason]|text];
    try (intros [= <- <-]; split; reflexivity).
  run. destruct (loads env text) as [data|].
  2:{ intros [= <- <-]. split; reflexivity. }
  run.
  destruct (py_and _ _) as [success|e] eqn:Hc.
  - intros [= <- <-]. split; [reflexivity|]. split; [reflexivity | exact Hc].
  - intros [= <- <-]. split; [reflexivity|].
    apply value_error_from_data. exact (classification_raises data e Hc).
Qed.

(** What [discovery] leaves behind. *)
Lemma discovery_inv (env : Env) (url : string) (w0 w1 : world)
  (r : result (list ServerDescription * pyval)) :
  discovery env url w0 = (r, w1) ->
  match r with
  | Ok (servers, cluster_info) =>
      list_truthy servers = true
      /\ net w1 = net w0 ++ [HttpGet ("http://" ++ url ++ "/") 10;
                             servers_request url; cluster_request url]
      /\ out w1 = out w0 ++ [PServers servers; PStr (str_repeat "-" 72)]
  | Raise e => from_data e = true \/ e = AssertionError
  end.
Proof.
  unfold discovery, requests_get. run.
  destruct (http_get _ _ _ _) as [reason|code].
  { intros [= <- <-]. now left. }
  run. destruct (code =? 200)%Z.
  2:{ intros [= <- <-]. now right. }
  run.
  destruct (get_servers_run env url (sent (HttpGet ("http://" ++ url ++ "/") 10) w0))
    as (rs & ws & -> & _ & Hrs & Hws).
  destruct rs as [servers|e].
  2:{ intros [= <- <-]. left. now apply Hrs. }
  rewrite (Hws servers eq_refl).
  run. destruct servers as [|first rest].
  { intros [= <- <-]. now right. }
  cbn [list_truthy]. run.
  match goal with
  | |- context [get_cluster_info env url ?w] =>
      destruct (get_cluster_info_run env url w) as (rc & wc & -> & _ & Hrc & Hwc)
  end.
  destruct rc as [cluster_info|e].
  2:{ intros [= <- <-]. left. now apply Hrc. }
  rewrite (Hwc cluster_info eq_refl).
  intros [= <- <-]. split; [reflexivity|]. cbn [net out sent wrote].
  rewrite <- !app_assoc. split; reflexivity.
Qed.

(** [main] is the sequence of its stages. *)
Lemma main_stages (env : Env) (argv : list string) (w : world) :
  main env argv w =
  (found <- discovery env "127.0.0.1:8081" ;;
   key_value_server <- key_value_server_selection (fst found) (snd found) ;;
   print (PServer key_value_server) ;;
   assert_ true ;;
   role_assignment env "127.0.0.1:8081" (snd found) key_value_server) w.
Proof.
  unfold main, discovery, key_value_server_selection, role_assignment, report.
  run.
  destruct (requests_get env _ _ w) as [[ping|e] w1]; [|reflexivity].
  run. destruct (status_code ping =? 200)%Z; [|reflexivity].
  run. destruct (get_servers env _ w1) as [[servers|e] w2]; [|reflexivity].
  run. destruct (list_truthy servers); [|reflexivity].
  run. destruct (get_cluster_info env _ _) as [[cluster_info|e] w3]; [|reflexivity].
  run.
  destruct (py_getitem cluster_info "clusterSelf") as [cluster_self|];
    [|reflexivity].
  destruct (py_getitem cluster_self "uri") as [bootstraped_uri|];
    [|reflexivity].
  destruct (list_first servers) as [default|]; [|reflexivity].
  destruct (find _ servers default w3) as [[key_value_server|e] w4];
    reflexivity.
Qed.

Lemma selection_inv (servers : list ServerDescription) (cluster_info : pyval)
  (w w' : world) (r : result ServerDescription) :
  list_truthy servers = true ->
  key_value_server_selection servers cluster_info w = (r, w') ->
  w' = w /\ forall e, r = Raise e -> value_error e = true.
Proof.
  intros Hservers. unfold key_value_server_selection. run.
  destruct (py_getitem cluster_info "clusterSelf") as [cluster_self|e1] eqn:H1.
  2:{ intros [= <- <-]. split; [reflexivity|]. intros e [= <-].
      now apply py_getitem_raises in H1. }
  run. destruct (py_getitem cluster_self "uri") as [u|e2] eqn:H2.
  2:{ intros [= <- <-]. split; [reflexivity|]. intros e [= <-].
      now apply py_getitem_raises in H2. }
  destruct servers as [|first rest]; [discriminate|]. cbn [list_first].
  rewrite (find_pure (fun server => py_eq (uri server) u)).
  intros [= <- <-]. split; [reflexivity | discriminate].
Qed.

Lemma role_known_raises (cluster_info : pyval) (e : exc) :
  role_known cluster_info = Raise e -> value_error e = true.
Proof.
  unfold role_known. run.
  destruct (py_getitem cluster_info "knownRoles") eqn:H1.
  - apply py_in_raises.
  - intros [= <-]. now apply py_getitem_raises in H1.
Qed.

Lemma role_assignment_run (env : Env) (url : string) (cluster_info : pyval)
  (key_value_server : ServerDescription) (w : world) :
  role_assignment env url cluster_info key_value_server w =
  match role_known cluster_info with
  | Ok true =>
      (r <- assign_roles env url key_value_server ["key-value"] ;; report r) w
  | Ok false => (Raise AssertionError, w)
  | Raise e => (Raise e, w)
  end.
Proof.
  unfold role_assignment, role_known. run.
  destruct (py_getitem cluster_info "knownRoles") as [known_roles|];
    [|reflexivity].
  destruct (py_in "key-value" known_roles) as [[|]|]; reflexivity.
Qed.

Lemma report_run (success : bool) (data : pyval) (w : world) :
  report (success, data) w =
  if success then (Ok tt, wrote (PColored "success" "green") w)
  else (Raise (SystemExit 1),
        wrote (PVal data) (wrote (PColored "fail" "red") w)).
Proof. destruct success; reflexivity. Qed.

(** After a discovery and a selection, [main] prints the server and
    runs the role assignment. *)
Lemma main_after_selection (env : Env) (argv : list string) (w0 w1 : world)
  (servers : list ServerDescription) (cluster_info : pyval)
  (key_value_server : ServerDescription) :
  discovery env "127.0.0.1:8081" w0 = (Ok (servers, cluster_info), w1) ->
  key_value_server_selection servers cluster_info w1
  = (Ok key_value_server, w1) ->
  main env argv w0 =
  role_assignment env "127.0.0.1:8081" cluster_info key_value_server
    (wrote (PServer key_value_server) w1).
Proof.
  intros Hd Hs. rewrite main_stages. run.
  rewrite Hd. cbn [fst snd]. rewrite Hs. reflexivity.
Qed.

(** Every way a run of [main] can end. *)
Lemma main_cases (env : Env) (argv : list string) (w0 w : world)
  (r : result unit) :
  main env argv w0 = (r, w) ->
  (exists data w2,
     assignment_made env w0 true data w2
     /\ r = Ok tt /\ w = wrote (PColored "success" "green") w2)
  \/ (exists data w2,
        assignment_made env w0 false data w2
        /\ r = Raise (SystemExit 1)
        /\ w = wrote (PVal data) (wrote (PColored "fail" "red") w2))
  \/ (exists e, r = Raise e /\ (from_data e = true \/ e = AssertionError)).
Proof.
  rewrite main_stages. run.
  destruct (discovery env "127.0.0.1:8081" w0) as [[[servers cluster_info]|e] w1]
    eqn:Hd.
  2:{ intros [= <- <-]. right; right. exists e. split; [reflexivity|].
      exact (discovery_inv _ _ _ _ _ Hd). }
  destruct (discovery_inv _ _ _ _ _ Hd) as (Hservers & _ & _).
  cbn [fst snd].
  destruct (key_value_server_selection servers cluster_info w1)
    as [[key_value_server|e] w1'] eqn:Hs.
  2:{ intros [= <- <-]. right; right. exists e. split; [reflexivity|].
      left. apply value_error_from_data.
      now apply (selection_inv _ _ _ _ _ Hservers Hs). }
  destruct (selection_inv _ _ _ _ _ Hservers Hs) as [-> _].
  run.
  rewrite role_assignment_run.
  destruct (role_known cluster_info) as [[|]|e] eqn:Hk.
  - run.
    destruct (assign_roles env "127.0.0.1:8081" key_value_server ["key-value"]
                (wrote (PServer key_value_server) w1))
      as [[[success data]|e] w2] eqn:Ha.
    + rewrite report_run. destruct success; intros [= <- <-].
      * left. exists data, w2. split; [|split; reflexivity].
        exists servers, cluster_info, w1, key_value_server. auto.
      * right; left. exists data, w2. split; [|split; reflexivity].
        exists servers, cluster_info, w1, key_value_server. auto.
    + intros [= <- <-]. right; right. exists e. split; [reflexivity|].
      left.
      exact (proj2 (assign_roles_inv env _ _ ["key-value"] _ _ _ eq_refl Ha)).
  - intros [= <- <-]. right; right. exists AssertionError. auto.
  - intros [= <- <-]. right; right. exists e. split; [reflexivity|].
    left. apply value_error_from_data. now apply role_known_raises in Hk.
Qed.

(** ** The role check *)

Lemma py_in_list_absent (key : string) (l : list pyval) :
  ~ In (PyStr key) l -> py_in key (PyList l) = Ok false.
Proof.
  intros Habsent. cbn [py_in]. f_equal.
  induction l as [|x l IH]; [reflexivity|]. cbn [existsb].
  rewrite py_eq_str_false.
  - apply IH. intros H. apply Habsent. now right.
  - intros ->. apply Habsent. now left.
Qed.

(** C5. When the roles the cluster knows do not include [key-value],
    the role assignment fails on its assertion before [assign_roles] is
    called and leaves the world as it found it; a run of [main] that got
    that far has sent the probe and the two queries, and no mutation. *)
Theorem unknown_role_no_mutation
  (env : Env) (cluster_info : pyval) (known_roles : list pyval) :
  py_getitem cluster_info "knownRoles" = Ok (PyList known_roles) ->
  ~ In (PyStr "key-value") known_roles ->
  (forall url key_value_server w,
     role_assignment env url cluster_info key_value_server w
     = (Raise AssertionError, w))
  /\ (forall argv w0 servers w1 key_value_server,
       discovery env "127.0.0.1:8081" w0 = (Ok (servers, cluster_info), w1) ->
       key_value_server_selection servers cluster_info w1
       = (Ok key_value_server, w1) ->
       main env argv w0
       = (Raise AssertionError, wrote (PServer key_value_server) w1)
       /\ net (wrote (PServer key_value_server) w1)
          = net w0 ++ [HttpGet "http://127.0.0.1:8081/" 10;
                       servers_request "127.0.0.1:8081";
                       cluster_request "127.0.0.1:8081"]).
Proof.
  intros Hroles Habsent.
  assert (Hblock : forall url key_value_server w,
             role_assignment env url cluster_info key_value_server w
             = (Raise AssertionError, w)).
  { intros url key_value_server w. rewrite role_assignment_run.
    unfold role_known. run. rewrite Hroles.
    now rewrite (py_in_list_absent _ _ Habsent). }
  split; [exact Hblock|].
  intros argv w0 servers w1 key_value_server Hd Hs.
  rewrite (main_after_selection _ _ _ _ _ _ _ Hd Hs), Hblock.
  split; [reflexivity|].
  exact (proj1 (proj2 (discovery_inv _ _ _ _ _ Hd))).
Qed.

(** A cluster that knows the vshard roles only. *)
Lemma unknown_role_no_mutation_witness :
  let env := Sample.two_nodes "b:2" ["vshard-storage"; "vshard-router"]
               Sample.joined in
  fst (main env ["graphql_helper.py"] empty_world) = Raise AssertionError
  /\ net (snd (main env ["graphql_helper.py"] empty_world))
     = [HttpGet "http://127.0.0.1:8081/" 10;
        servers_request "127.0.0.1:8081";
        cluster_request "127.0.0.1:8081"].
Proof.
  assert (Habsent : ~ In (PyStr "key-value")
                      [PyStr "vshard-storage"; PyStr "vshard-router"]).
  { intros [H|[H|[]]]; discriminate. }
  destruct (unknown_role_no_mutation
              (Sample.two_nodes "b:2" ["vshard-storage"; "vshard-router"]
                 Sample.joined)
              (Sample.cluster_state "b:2" ["vshard-storage"; "vshard-router"])
              [PyStr "vshard-storage"; PyStr "vshard-router"]
              eq_refl Habsent) as [_ Hmain].
  destruct (Hmain ["graphql_helper.py"] empty_world
              [Sample.node "a:1"; Sample.node "b:2"] _ (Sample.node "b:2")
              eq_refl eq_refl) as [Hrun Hnet].
  cbv zeta. rewrite Hrun. split; [reflexivity | exact Hnet].
Defined.

(** ** The empty server list *)

(** C10. A run of [main] never ends in [IndexError]. When [get_servers]
    returns no server, [main] fails on its assertion after the two
    prints: the cluster query is not sent and the selection, with its
    [servers[0]], is not reached. *)
Theorem main_never_index_error
  (env : Env) (argv : list string) (w0 : world) :
  fst (main env argv w0) <> Raise IndexError
  /\ (forall w1,
       http_get env (net w0) "http://127.0.0.1:8081/" 10 = inr 200%Z ->
       get_servers env "127.0.0.1:8081"
         (sent (HttpGet "http://127.0.0.1:8081/" 10) w0) = (Ok [], w1) ->
       main env argv w0
       = (Raise AssertionError,
          wrote (PStr (str_repeat "-" 72)) (wrote (PServers []) w1))
       /\ net w1 = net w0 ++ [HttpGet "http://127.0.0.1:8081/" 10;
                              servers_request "127.0.0.1:8081"]).
Proof.
  split.
  - destruct (main env argv w0) as [r w] eqn:Hrun. cbn [fst].
    destruct (main_cases _ _ _ _ _ Hrun)
      as [(? & ? & _ & -> & _) | [(? & ? & _ & -> & _) | (e & -> & He)]];
      try discriminate.
    intros [= ->]. destruct He; discriminate.
  - intros w1 Hping Hservers. split.
    + unfold main, requests_get. run.
      change ("http://" ++ "127.0.0.1:8081" ++ "/")%string
        with "http://127.0.0.1:8081/".
      rewrite Hping. run. change (200 =? 200)%Z with true. run.
      rewrite Hservers. reflexivity.
    + destruct (get_servers_run env "127.0.0.1:8081"
                  (sent (HttpGet "http://127.0.0.1:8081/" 10) w0))
        as (r & ws & Heq & Hnet & _ & _).
      rewrite Heq in Hservers. injection Hservers as _ <-.
      rewrite Hnet. cbn [net sent]. now rewrite <- app_assoc.
Qed.

(** A cluster with no server. *)
Lemma main_never_index_error_witness :
  let env := Sample.cluster 200 (Sample.servers_answer [])
               (Sample.cluster_answer "b:2" ["key-value"]) Sample.joined in
  fst (main env ["graphql_helper.py"] empty_world) = Raise AssertionError
  /\ net (snd (main env ["graphql_helper.py"] empty_world))
     = [HttpGet "http://127.0.0.1:8081/" 10; servers_request "127.0.0.1:8081"].
Proof.
  destruct (main_never_index_error
              (Sample.cluster 200 (Sample.servers_answer [])
                 (Sample.cluster_answer "b:2" ["key-value"]) Sample.joined)
              ["graphql_helper.py"] empty_world) as [_ Hempty].
  destruct (Hempty _ eq_refl eq_refl) as [Hrun Hnet].
  cbv zeta. rewrite Hrun. split; [reflexivity | exact Hnet].
Defined.

(** ** The command line and the exit status *)

(** C8, as amended. [main] does not read the command line: it always
    addresses [127.0.0.1:8081]. It ends with status 0 exactly when the
    assignment was made and classified as a success, and with status 1
    on every failure. When the assignment was made and classified as a
    failure, the answer is printed after the word [fail] and the run
    ends through [exit(1)]; [exit] is reached in no other way. *)
Theorem main_exit_status (env : Env) (argv : list string) (w0 : world) :
  main env argv w0 = main env [] w0
  /\ (forall data w2,
       assignment_made env w0 true data w2 ->
       main env argv w0 = (Ok tt, wrote (PColored "success" "green") w2))
  /\ (forall data w2,
       assignment_made env w0 false data w2 ->
       main env argv w0
       = (Raise (SystemExit 1),
          wrote (PVal data) (wrote (PColored "fail" "red") w2)))
  /\ (exit_status (fst (main env argv w0)) = 0%Z ->
      exists data w2, assignment_made env w0 true data w2)
  /\ (exit_status (fst (main env argv w0)) <> 0%Z ->
      exit_status (fst (main env argv w0)) = 1%Z)
  /\ (forall code,
       fst (main env argv w0) = Raise (SystemExit code) ->
       code = 1%Z /\ exists data w2, assignment_made env w0 false data w2).
Proof.
  split; [reflexivity|].
  assert (Hmade : forall success data w2,
             assignment_made env w0 success data w2 ->
             main env argv w0 = report (success, data) w2).
  { intros success data w2
           (servers & cluster_info & w1 & key_value_server & Hd & Hs & Hk & Ha).
    rewrite (main_after_selection _ _ _ _ _ _ _ Hd Hs), role_assignment_run, Hk.
    run. now rewrite Ha. }
  split; [intros data w2 H; now rewrite (Hmade _ _ _ H)|].
  split; [intros data w2 H; now rewrite (Hmade _ _ _ H)|].
  destruct (main env argv w0) as [r w] eqn:Hrun. cbn [fst].
  destruct (main_cases _ _ _ _ _ Hrun)
    as [(data & w2 & Hm & -> & _)
       | [(data & w2 & Hm & -> & _) | (e & -> & He)]].
  - split; [eauto|]. split; [intros H; now elim H | discriminate].
  - split; [discriminate|]. split; [reflexivity|].
    intros code [= <-]. eauto.
  - assert (Hstatus : exit_status (Raise e) = 1%Z).
    { destruct He as [He| ->]; [|reflexivity].
      destruct e; try reflexivity; discriminate. }
    split; [rewrite Hstatus; discriminate|]. split; [intros _; exact Hstatus|].
    intros code [= ->]. destruct He; discriminate.
Qed.

(** A cluster that refuses the assignment: status 1, and the answer is
    the last thing printed. *)
Lemma main_exit_status_witness :
  let env := Sample.two_nodes "b:2" ["key-value"] Sample.refused in
  exit_status (fst (main env ["graphql_helper.py"] empty_world)) = 1%Z
  /\ exists printed_before,
       out (snd (main env ["graphql_helper.py"] empty_world))
       = printed_before ++ [PColored "fail" "red"; PVal Sample.refused].
Proof.
  destruct (main_exit_status
              (Sample.two_nodes "b:2" ["key-value"] Sample.refused)
              ["graphql_helper.py"] empty_world) as (_ & _ & Hfail & _).
  assert (Hmade : assignment_made
                    (Sample.two_nodes "b:2" ["key-value"] Sample.refused)
                    empty_world false Sample.refused
                    (answered "127.0.0.1:8081" (Sample.node "b:2") ["key-value"]
                       (wrote (PServer (Sample.node "b:2"))
                          (snd (discovery
                                  (Sample.two_nodes "b:2" ["key-value"]
                                     Sample.refused)
                                  "127.0.0.1:8081" empty_world)))
                       Sample.refused)).
  { exists [Sample.node "a:1"; Sample.node "b:2"],
           (Sample.cluster_state "b:2" ["key-value"]),
           (snd (discovery (Sample.two_nodes "b:2" ["key-value"] Sample.refused)
                   "127.0.0.1:8081" empty_world)),
           (Sample.node "b:2").
    repeat split. }
  cbv zeta. rewrite (Hfail _ _ Hmade). split; [reflexivity|].
  exists [PServers [Sample.node "a:1"; Sample.node "b:2"];
          PStr (str_repeat "-" 72);
          PServer (Sample.node "b:2");
          PVal Sample.refused].
  reflexivity.
Defined.

(** C8, as stated, fails. Started with the argument [10.0.0.1:3301],
    [main] still sends every request to [127.0.0.1:8081]; and when the
    probe is answered with status 500 the run ends with status 1 having
    printed nothing. *)
Lemma main_ignores_command_line :
  let argv := ["graphql_helper.py"; "10.0.0.1:3301"] in
  spec_target argv "127.0.0.1:8081" = "10.0.0.1:3301"
  /\ net (snd (main (Sample.two_nodes "b:2" ["key-value"] Sample.joined)
                 argv empty_world))
     = [HttpGet "http://127.0.0.1:8081/" 10;
        servers_request "127.0.0.1:8081";
        cluster_request "127.0.0.1:8081";
        join_request "127.0.0.1:8081" (Sample.node "b:2") ["key-value"]]
  /\ exit_status
       (fst (main (Sample.cluster 500 (Sample.servers_answer ["a:1"; "b:2"])
                     (Sample.cluster_answer "b:2" ["key-value"])
                     Sample.joined)
               argv empty_world)) = 1%Z
  /\ out (snd (main (Sample.cluster 500 (Sample.servers_answer ["a:1"; "b:2"])
                      (Sample.cluster_answer "b:2" ["key-value"])
                      Sample.joined)
                argv empty_world)) = [].
Proof. repeat split. Qed.

(* ===================================================================== *)
(** * Further properties of the script *)
(* ===================================================================== *)

(** ** [find] *)

(** Whatever the predicate does to the world, a value returned by [find]
    is an element of the sequence or the default. *)
Theorem find_returns_element_or_default {A : Type}
  (predicate : A -> M bool) (seq : list A) (default x : A) (w w' : world) :
  find predicate seq default w = (Ok x, w') ->
  In x seq \/ x = default.
Proof.
  revert w. induction seq as [|s rest IH]; intros w; cbn [find]; run.
  - intros [= <- _]. now right.
  - destruct (predicate s w) as [[[|]|e] w1].
    + intros [= <- _]. left. now left.
    + intros H. destruct (IH _ H) as [Hin| ->]; [left; now right | now right].
    + discriminate.
Qed.

Lemma find_returns_element_or_default_witness :
  In (Sample.node "b:2") [Sample.node "a:1"; Sample.node "b:2"]
  \/ Sample.node "b:2" = Sample.node "a:1".
Proof.
  exact (find_returns_element_or_default
           (fun server => ret (py_eq (uri server) (PyStr "b:2")))
           [Sample.node "a:1"; Sample.node "b:2"] (Sample.node "a:1")
           (Sample.node "b:2") empty_world empty_world eq_refl).
Defined.

(** An exception that leaves [find] was raised by the predicate on an
    element of the sequence. *)
Theorem find_raises_from_predicate {A : Type}
  (predicate : A -> M bool) (seq : list A) (default : A) (w w' : world)
  (e : exc) :
  find predicate seq default w = (Raise e, w') ->
  exists s w1, In s seq /\ predicate s w1 = (Raise e, w').
Proof.
  revert w. induction seq as [|s rest IH]; intros w; cbn [find]; run.
  - discriminate.
  - destruct (predicate s w) as [[[|]|e1] w1] eqn:Hs.
    + discriminate.
    + intros H. destruct (IH _ H) as (s' & w2 & Hin & Hp).
      exists s', w2. split; [now right | exact Hp].
    + intros [= <- <-]. exists s, w. split; [now left | exact Hs].
Qed.

Lemma find_raises_from_predicate_witness :
  exists s w1,
    In s [Sample.node "a:1"; Sample.node "b:2"]
    /\ (fun server : ServerDescription =>
          if py_eq (uri server) (PyStr "b:2") then raise TypeError
          else ret false) s w1
       = (Raise TypeError, empty_world).
Proof.
  exact (find_raises_from_predicate
           (fun server : ServerDescription =>
              if py_eq (uri server) (PyStr "b:2") then raise TypeError
              else ret false)
           [Sample.node "a:1"; Sample.node "b:2"] (Sample.node "a:1")
           empty_world empty_world TypeError eq_refl).
Defined.

(** With a predicate that only computes, [find] leaves the world alone
    and returns the first element the predicate accepts, or the default
    when it accepts none; an empty sequence gives the default. *)
Theorem find_first_accepted_or_default {A : Type}
  (p : A -> bool) (seq : list A) (default : A) (w : world) :
  exists x,
    find (fun s => ret (p s)) seq default w = (Ok x, w)
    /\ ((exists before after,
           seq = before ++ x :: after
           /\ p x = true
           /\ forall y, In y before -> p y = false)
        \/ (x = default /\ forall y, In y seq -> p y = false)).
Proof.
  rewrite find_pure. eexists; split; [reflexivity|].
  generalize (eq_refl (match List.find p seq with
                       | Some s => s
                       | None => default
                       end)).
  generalize (match List.find p seq with Some s => s | None => default end)
    at 2 3 4 as x.
  induction seq as [|s rest IH]; intros x; cbn [List.find].
  - intros <-. right. split; [reflexivity|]. intros y [].
  - destruct (p s) eqn:Hs.
    + intros <-. left. exists [], rest. split; [reflexivity|].
      split; [exact Hs|]. intros y [].
    + intros Hx.
      destruct (IH x Hx) as [(before & after & Hseq & Hpx & Hbefore) | [Hd Hnone]].
      * left. exists (s :: before), after. split; [now rewrite Hseq|].
        split; [exact Hpx|]. intros y [<-|Hy]; auto.
      * right. split; [exact Hd|]. intros y [<-|Hy]; auto.
Qed.

(** No server carries the uri [c:3]: the default comes back. *)
Lemma find_first_accepted_or_default_witness :
  exists x,
    find (fun s => ret (py_eq (uri s) (PyStr "c:3")))
         [Sample.node "a:1"; Sample.node "b:2"] (Sample.node "a:1")
         empty_world
    = (Ok x, empty_world)
    /\ ((exists before after,
           [Sample.node "a:1"; Sample.node "b:2"] = before ++ x :: after
           /\ py_eq (uri x) (PyStr "c:3") = true
           /\ forall y, In y before -> py_eq (uri y) (PyStr "c:3") = false)
        \/ (x = Sample.node "a:1"
            /\ forall y, In y [Sample.node "a:1"; Sample.node "b:2"] ->
                         py_eq (uri y) (PyStr "c:3") = false)).
Proof.
  exact (find_first_accepted_or_default
           (fun s => py_eq (uri s) (PyStr "c:3"))
           [Sample.node "a:1"; Sample.node "b:2"] (Sample.node "a:1")
           empty_world).
Defined.

(** ** [parse_server_description] *)

Lemma prop_or_none_object (d : list (string * pyval)) (prop : string) :
  prop_or_none (PyDict d) prop = Ok (field_or_none d prop).
Proof.
  unfold prop_or_none, py_if_else, field_or_none. cbn [py_in py_getitem].
  unfold dict_has. run. destruct (dict_get d prop); reflexivity.
Qed.

Lemma parse_server_description_object (d : list (string * pyval)) :
  parse_server_description (PyDict d) =
  Ok {| uri := field_or_none d "uri";
        alias := field_or_none d "alias";
        status := field_or_none d "status";
        uuid := field_or_none d "uuid";
        message := field_or_none d "message";
        replicaset := field_or_none d "replicaset" |}.
Proof.
  unfold parse_server_description, __server_description_fields.
  cbn [map_result]. rewrite !prop_or_none_object. reflexivity.
Qed.

(** On an object the parse never raises, and the description depends on
    the six named fields only: two objects that agree on them, whatever
    else they hold and in whatever order, give the same description. *)
Theorem parse_server_description_reads_six_fields
  (d d' : list (string * pyval)) :
  (forall name, In name __server_description_fields ->
                dict_get d name = dict_get d' name) ->
  exists s,
    parse_server_description (PyDict d) = Ok s
    /\ parse_server_description (PyDict d') = Ok s.
Proof.
  intros Hagree. rewrite !parse_server_description_object.
  unfold field_or_none.
  rewrite !(Hagree _); cbn; eauto 10.
Qed.

Lemma parse_server_description_reads_six_fields_witness :
  exists s,
    parse_server_description
      (PyDict [("uri", PyStr "a:1"); ("alias", PyStr "storage")]) = Ok s
    /\ parse_server_description
         (PyDict [("priority", PyInt 1); ("alias", PyStr "storage");
                  ("uri", PyStr "a:1")]) = Ok s.
Proof.
  apply (parse_server_description_reads_six_fields
           [("uri", PyStr "a:1"); ("alias", PyStr "storage")]
           [("priority", PyInt 1); ("alias", PyStr "storage");
            ("uri", PyStr "a:1")]).
  intros name [<-|[<-|[<-|[<-|[<-|[<-|[]]]]]]]; reflexivity.
Defined.

(** A field the object does not hold is [None] in the description, and a
    field it holds is copied as it is. *)
Theorem parse_server_description_missing_is_none
  (d : list (string * pyval)) :
  exists s,
    parse_server_description (PyDict d) = Ok s
    /\ (forall name, In name __server_description_fields ->
                     dict_get (_asdict s) name = Some (field_or_none d name)).
Proof.
  rewrite parse_server_description_object. eexists; split; [reflexivity|].
  intros name [<-|[<-|[<-|[<-|[<-|[<-|[]]]]]]]; reflexivity.
Qed.

Lemma parse_server_description_missing_is_none_witness :
  exists s,
    parse_server_description (PyDict [("uri", PyStr "a:1")]) = Ok s
    /\ (forall name, In name __server_description_fields ->
                     dict_get (_asdict s) name
                     = Some (field_or_none [("uri", PyStr "a:1")] name)).
Proof.
  exact (parse_server_description_missing_is_none [("uri", PyStr "a:1")]).
Defined.

(** The variables [_asdict] gives are parsed back to the description
    they came from. *)
Theorem parse_server_description_asdict (s : ServerDescription) :
  parse_server_description (PyDict (_asdict s)) = Ok s.
Proof.
  rewrite parse_server_description_object. destruct s. reflexivity.
Qed.

Lemma prop_or_none_not_object (kwdict : pyval) (prop : string) :
  (forall d, kwdict <> PyDict d) ->
  prop_or_none kwdict prop = Ok PyNone
  \/ prop_or_none kwdict prop = Raise TypeError.
Proof.
  intros Hnot. unfold prop_or_none, py_if_else. run.
  destruct kwdict as [| | | |s|l|d]; cbn [py_in py_getitem]; auto.
  - destruct (str_contains s prop); auto.
  - destruct (existsb _ l); auto.
  - now elim (Hnot d).
Qed.

(** Only an object can give a description with a field set: on any
    other value (a string, a list, a number, [None]) the parse either
    raises [TypeError] or returns the description with no field. *)
Theorem parse_server_description_not_object (kwdict : pyval) :
  (forall d, kwdict <> PyDict d) ->
  parse_server_description kwdict = Ok no_fields
  \/ parse_server_description kwdict = Raise TypeError.
Proof.
  intros Hnot. unfold parse_server_description, __server_description_fields.
  cbn [map_result]. run.
  destruct (prop_or_none_not_object kwdict "uri" Hnot) as [-> | ->]; auto.
  destruct (prop_or_none_not_object kwdict "alias" Hnot) as [-> | ->]; auto.
  destruct (prop_or_none_not_object kwdict "status" Hnot) as [-> | ->]; auto.
  destruct (prop_or_none_not_object kwdict "uuid" Hnot) as [-> | ->]; auto.
  destruct (prop_or_none_not_object kwdict "message" Hnot) as [-> | ->]; auto.
  destruct (prop_or_none_not_object kwdict "replicaset" Hnot) as [-> | ->]; auto.
Qed.

(** A key of an object, as met when the server list is an object. *)
Lemma parse_server_description_not_object_witness :
  parse_server_description (PyStr "replicaset-1") = Ok no_fields
  \/ parse_server_description (PyStr "replicaset-1") = Raise TypeError.
Proof.
  apply (parse_server_description_not_object (PyStr "replicaset-1")).
  intros d. discriminate.
Defined.

Lemma prop_or_none_raises_type_error (kwdict : pyval) (prop : string)
  (e : exc) :
  prop_or_none kwdict prop = Raise e -> e = TypeError.
Proof.
  destruct kwdict as [| | | |s|l|d];
    [| | | | | |rewrite prop_or_none_object; discriminate];
    match goal with
    | |- prop_or_none ?v _ = _ -> _ =>
        destruct (prop_or_none_not_object v prop) as [-> | ->];
        [intros d'; discriminate | discriminate | congruence]
    end.
Qed.

(** The test [prop in kwdict] guards every subscription, so a missing
    field never shows as [KeyError]: the only exception the parse
    raises, whatever it is given, is [TypeError]. *)
Theorem parse_server_description_raises_type_error
  (kwdict : pyval) (e : exc) :
  parse_server_description kwdict = Raise e -> e = TypeError.
Proof.
  unfold parse_server_description. run.
  destruct (map_result _ _) as [args|e'] eqn:Hargs.
  - unfold ServerDescription_of_list.
    destruct args as [|? [|? [|? [|? [|? [|? [|? ?]]]]]]]; congruence.
  - intros [= <-].
    exact (map_result_raises (fun e => e = TypeError)
             (prop_or_none kwdict) __server_description_fields e'
             (prop_or_none_raises_type_error kwdict) Hargs).
Qed.

Lemma parse_server_description_raises_type_error_witness :
  TypeError = TypeError.
Proof.
  exact (parse_server_description_raises_type_error PyNone TypeError eq_refl).
Defined.

(** ** [get_servers] and [get_cluster_info] *)

Lemma map_result_ok {A B : Type} (f : A -> result B) (l : list A)
  (l' : list B) :
  map_result f l = Ok l' <-> Forall2 (fun x y => f x = Ok y) l l'.
Proof.
  revert l'. induction l as [|x l IH]; intros l'; cbn [map_result]; run.
  - split.
    + intros [= <-]. constructor.
    + intros H. inversion H. reflexivity.
  - destruct (f x) as [y|e] eqn:Hx.
    + destruct (map_result f l) as [ys|e] eqn:Hl.
      * split.
        -- intros [= <-]. constructor; [exact Hx | now apply IH].
        -- intros H. inversion H as [|? y' ? ys' Hy Hys]; subst.
           rewrite Hx in Hy. injection Hy as <-.
           apply IH in Hys. now injection Hys as <-.
      * split; [discriminate|].
        intros H. inversion H as [|? y' ? ys' Hy Hys]; subst.
        apply IH in Hys. discriminate.
    + split; [discriminate|].
      intros H. inversion H as [|? y' ? ys' Hy Hys]; subst. congruence.
Qed.

(** When the answer holds a list under [data.serverList], [get_servers]
    returns a list exactly when every element parses, and then returns
    the parsed elements in their order: as many servers as elements,
    none dropped, none added. *)
Theorem get_servers_elementwise
  (env : Env) (url : string) (w : world) (text : string)
  (data d : pyval) (items : list pyval) :
  graphql_post env (net w) (api_endpoint url) servers_query None = inr text ->
  loads env text = Some data ->
  py_getitem data "data" = Ok d ->
  py_getitem d "serverList" = Ok (PyList items) ->
  forall servers,
    (fst (get_servers env url w) = Ok servers
     <-> Forall2 (fun item s => parse_server_description item = Ok s)
                 items servers)
    /\ (fst (get_servers env url w) = Ok servers ->
        length servers = length items).
Proof.
  intros Hpost Hloads Hdata Hlist servers.
  assert (Hrun : fst (get_servers env url w)
                 = map_result parse_server_description items).
  { unfold get_servers, execute, json_loads. run. rewrite Hpost. run.
    rewrite Hloads. run. rewrite Hdata. run. rewrite Hlist.
    cbn [py_iter]. run.
    destruct (map_result parse_server_description items); reflexivity. }
  rewrite Hrun. split; [apply map_result_ok|].
  intros H. apply map_result_ok in H. symmetry. exact (Forall2_length H).
Qed.

Lemma get_servers_elementwise_witness :
  length [Sample.node "a:1"; Sample.node "b:2"] = 2%nat.
Proof.
  exact (proj2 (get_servers_elementwise
                  (Sample.two_nodes "b:2" ["key-value"] Sample.joined)
                  "127.0.0.1:8081" empty_world "servers.json"
                  (Sample.servers_answer ["a:1"; "b:2"])
                  (PyDict [("serverList",
                            PyList [Sample.node_json "a:1";
                                    Sample.node_json "b:2"])])
                  [Sample.node_json "a:1"; Sample.node_json "b:2"]
                  eq_refl eq_refl eq_refl eq_refl
                  [Sample.node "a:1"; Sample.node "b:2"])
               eq_refl).
Defined.

(** Each query function sends exactly one request, whether it returns
    or raises, and prints nothing itself: the output grows only when the
    call is answered with an error status, by the body and the empty
    line the client prints before it raises. *)
Theorem queries_send_one_request (env : Env) (url : string) (w : world) :
  (net (snd (get_servers env url w)) = net w ++ [servers_request url]
   /\ out (snd (get_servers env url w))
      = out w ++ printed_by_client
                   (graphql_post env (net w) (api_endpoint url)
                      servers_query None))
  /\ (net (snd (get_cluster_info env url w)) = net w ++ [cluster_request url]
      /\ out (snd (get_cluster_info env url w))
         = out w ++ printed_by_client
                      (graphql_post env (net w) (api_endpoint url)
                         cluster_query None)).
Proof.
  split.
  - unfold get_servers, execute, json_loads. run.
    destruct (graphql_post _ _ _ _ _) as [[reason body|reason]|text];
      cbn [printed_by_client];
      [split; cbn; rewrite <- ?app_assoc, ?app_nil_r; reflexivity ..|].
    run. destruct (loads env text) as [data|]; run;
      [|split; cbn; rewrite ?app_nil_r; reflexivity].
    destruct (py_getitem data "data") as [d|]; run;
      [|split; cbn; rewrite ?app_nil_r; reflexivity].
    destruct (py_getitem d "serverList") as [sl|]; run;
      [|split; cbn; rewrite ?app_nil_r; reflexivity].
    destruct (py_iter sl) as [items|]; run;
      [|split; cbn; rewrite ?app_nil_r; reflexivity].
    destruct (map_result parse_server_description items);
      split; cbn; rewrite ?app_nil_r; reflexivity.
  - unfold get_cluster_info, execute, json_loads. run.
    destruct (graphql_post _ _ _ _ _) as [[reason body|reason]|text];
      cbn [printed_by_client];
      [split; cbn; rewrite <- ?app_assoc, ?app_nil_r; reflexivity ..|].
    run. destruct (loads env text) as [data|]; run;
      [|split; cbn; rewrite ?app_nil_r; reflexivity].
    destruct (py_getitem data "data") as [d|]; run;
      [|split; cbn; rewrite ?app_nil_r; reflexivity].
    destruct (py_getitem d "cluster");
      split; cbn; rewrite ?app_nil_r; reflexivity.
Qed.

(** When the answer has a [data] object without the field the function
    reads, the function raises [KeyError] on that field: [serverList]
    for [get_servers], [cluster] for [get_cluster_info]. When [data] is
    not an object (a failed query answers [null]) it raises
    [TypeError]. *)
Theorem queries_inner_field_missing
  (env : Env) (url : string) (w : world) (text : string)
  (data d : pyval) :
  loads env text = Some data ->
  py_getitem data "data" = Ok d ->
  (graphql_post env (net w) (api_endpoint url) servers_query None = inr text ->
   match d with
   | PyDict fields =>
       dict_get fields "serverList" = None ->
       fst (get_servers env url w) = Raise (KeyError "serverList")
   | _ => fst (get_servers env url w) = Raise TypeError
   end)
  /\ (graphql_post env (net w) (api_endpoint url) cluster_query None = inr text ->
      fst (get_cluster_info env url w)
      = match d with
        | PyDict fields =>
            match dict_get fields "cluster" with
            | None => Raise (KeyError "cluster")
            | Some cluster_info => Ok cluster_info
            end
        | _ => Raise TypeError
        end).
Proof.
  intros Hloads Hdata. split; intros Hpost.
  - unfold get_servers, execute, json_loads. run. rewrite Hpost. run.
    rewrite Hloads. run. rewrite Hdata. run.
    destruct d as [| | | | | |fields]; try reflexivity.
    intros Hmissing. cbn [py_getitem]. rewrite Hmissing. reflexivity.
  - unfold get_cluster_info, execute, json_loads. run. rewrite Hpost. run.
    rewrite Hloads. run. rewrite Hdata. run.
    destruct d as [| | | | | |fields]; try reflexivity.
Qed.

Lemma queries_inner_field_missing_witness :
  let env := Sample.cluster 200 Sample.empty_data Sample.empty_data
               Sample.joined in
  fst (get_servers env "127.0.0.1:8081" empty_world)
  = Raise (KeyError "serverList")
  /\ fst (get_cluster_info env "127.0.0.1:8081" empty_world)
     = Raise (KeyError "cluster").
Proof.
  destruct (queries_inner_field_missing
              (Sample.cluster 200 Sample.empty_data Sample.empty_data
                 Sample.joined)
              "127.0.0.1:8081" empty_world "servers.json"
              Sample.empty_data (PyDict []) eq_refl eq_refl) as [Hservers _].
  destruct (queries_inner_field_missing
              (Sample.cluster 200 Sample.empty_data Sample.empty_data
                 Sample.joined)
              "127.0.0.1:8081" empty_world "cluster.json"
              Sample.empty_data (PyDict []) eq_refl eq_refl) as [_ Hcluster].
  split; [exact (Hservers eq_refl eq_refl) | exact (Hcluster eq_refl)].
Defined.

(** ** Failures of the transport and of the decoding *)

(** When the GraphQL call fails, each of the three functions raises the
    failure as [URLError] after its one request and parses nothing.
    When no answer came, nothing is printed. When the server answered
    with an error status, the client has printed the body of the answer
    and an empty line before the error is raised. *)
Theorem graphql_failure_propagates
  (env : Env) (url : string) (server : ServerDescription)
  (roles : list string) (w : world) (failure : call_failure) :
  (graphql_post env (net w) (api_endpoint url) servers_query None
   = inl failure ->
   get_servers env url w
   = match failure with
     | Unreachable reason =>
         (Raise (URLError reason), sent (servers_request url) w)
     | HTTPError reason body =>
         (Raise (URLError reason),
          wrote (PStr "") (wrote (PBytes body) (sent (servers_request url) w)))
     end)
  /\ (graphql_post env (net w) (api_endpoint url) cluster_query None
      = inl failure ->
      get_cluster_info env url w
      = match failure with
        | Unreachable reason =>
            (Raise (URLError reason), sent (cluster_request url) w)
        | HTTPError reason body =>
            (Raise (URLError reason),
             wrote (PStr "")
               (wrote (PBytes body) (sent (cluster_request url) w)))
        end)
  /\ (list_truthy roles = true ->
      graphql_post env (net w) (api_endpoint url) join_server_mutation
        (Some (dict_set (_asdict server) "roles" (PyList (map PyStr roles))))
      = inl failure ->
      assign_roles env url server roles w
      = match failure with
        | Unreachable reason =>
            (Raise (URLError reason), sent (join_request url server roles) w)
        | HTTPError reason body =>
            (Raise (URLError reason),
             wrote (PStr "")
               (wrote (PBytes body) (sent (join_request url server roles) w)))
        end).
Proof.
  split; [|split].
  - intros H. unfold get_servers, execute. run. rewrite H.
    destruct failure; reflexivity.
  - intros H. unfold get_cluster_info, execute. run. rewrite H.
    destruct failure; reflexivity.
  - intros Hroles H. unfold assign_roles, execute. rewrite Hroles. run.
    rewrite H. destruct failure; reflexivity.
Qed.

(** No answer at all, and an answer with the status 500. *)
Lemma graphql_failure_propagates_witness :
  get_servers Sample.unreachable "127.0.0.1:8081" empty_world
  = (Raise (URLError "connection refused"),
     sent (servers_request "127.0.0.1:8081") empty_world)
  /\ out (snd (get_cluster_info Sample.failing "127.0.0.1:8081" empty_world))
     = [PBytes "boom"; PStr ""]
  /\ out (snd (assign_roles Sample.failing "127.0.0.1:8081"
                 (Sample.node "b:2") ["key-value"] empty_world))
     = [PBytes "boom"; PStr ""].
Proof.
  destruct (graphql_failure_propagates Sample.unreachable "127.0.0.1:8081"
              (Sample.node "b:2") ["key-value"] empty_world
              (Unreachable "connection refused")) as (H1 & _ & _).
  destruct (graphql_failure_propagates Sample.failing "127.0.0.1:8081"
              (Sample.node "b:2") ["key-value"] empty_world
              (HTTPError "HTTP Error 500: Internal Server Error" "boom"))
    as (_ & H2 & H3).
  rewrite (H1 eq_refl), (H2 eq_refl), (H3 eq_refl eq_refl).
  repeat split.
Defined.

(** When the body of the answer is not JSON, each of the three
    functions raises [JSONDecodeError] after its one request;
    [assign_roles] has printed nothing. *)
Theorem undecodable_answer_propagates
  (env : Env) (url : string) (server : ServerDescription)
  (roles : list string) (w : world) (text : string) :
  loads env text = None ->
  (graphql_post env (net w) (api_endpoint url) servers_query None
   = inr text ->
   get_servers env url w
   = (Raise (JSONDecodeError text), sent (servers_request url) w))
  /\ (graphql_post env (net w) (api_endpoint url) cluster_query None
      = inr text ->
      get_cluster_info env url w
      = (Raise (JSONDecodeError text), sent (cluster_request url) w))
  /\ (list_truthy roles = true ->
      graphql_post env (net w) (api_endpoint url) join_server_mutation
        (Some (dict_set (_asdict server) "roles" (PyList (map PyStr roles))))
      = inr text ->
      assign_roles env url server roles w
      = (Raise (JSONDecodeError text),
         sent (join_request url server roles) w)).
Proof.
  intros Hloads. split; [|split].
  - intros H. unfold get_servers, execute, json_loads. run. rewrite H. run.
    now rewrite Hloads.
  - intros H. unfold get_cluster_info, execute, json_loads. run. rewrite H.
    run. now rewrite Hloads.
  - intros Hroles H. unfold assign_roles, execute, json_loads.
    rewrite Hroles. run. rewrite H. run. now rewrite Hloads.
Qed.

Lemma undecodable_answer_propagates_witness :
  fst (get_servers Sample.garbled "127.0.0.1:8081" empty_world)
  = Raise (JSONDecodeError "<html>")
  /\ fst (get_cluster_info Sample.garbled "127.0.0.1:8081" empty_world)
     = Raise (JSONDecodeError "<html>")
  /\ out (snd (assign_roles Sample.garbled "127.0.0.1:8081"
                 (Sample.node "b:2") ["key-value"] empty_world)) = [].
Proof.
  destruct (undecodable_answer_propagates Sample.garbled "127.0.0.1:8081"
              (Sample.node "b:2") ["key-value"] empty_world "<html>" eq_refl)
    as (H1 & H2 & H3).
  rewrite (H1 eq_refl), (H2 eq_refl), (H3 eq_refl eq_refl).
  repeat split.
Defined.

(** ** More on [assign_roles] *)

(** The parsed answer is printed before it is classified: it is on the
    output, once, also when the classification raises. *)
Theorem assign_roles_prints_answer
  (env : Env) (url : string) (server : ServerDescription)
  (roles : list string) (w : world) (text : string) (data : pyval) :
  list_truthy roles = true ->
  graphql_post env (net w) (api_endpoint url) join_server_mutation
    (Some (dict_set (_asdict server) "roles" (PyList (map PyStr roles))))
    = inr text ->
  loads env text = Some data ->
  out (snd (assign_roles env url server roles w)) = out w ++ [PVal data]
  /\ net (snd (assign_roles env url server roles w))
     = net w ++ [join_request url server roles].
Proof.
  intros Hroles Hpost Hloads.
  rewrite (assign_roles_run env url server roles w text _ Hroles Hpost Hloads).
  split; reflexivity.
Qed.

(** The answer [{"data": null, "errors": [...]}] makes the classification
    raise, and is printed all the same. *)
Lemma assign_roles_prints_answer_witness :
  let run := assign_roles
               (Sample.two_nodes "b:2" ["key-value"] Sample.null_data)
               "127.0.0.1:8081" (Sample.node "b:2") ["key-value"]
               empty_world in
  fst run = Raise TypeError /\ out (snd run) = [PVal Sample.null_data].
Proof.
  split; [reflexivity|].
  exact (proj1 (assign_roles_prints_answer
                  (Sample.two_nodes "b:2" ["key-value"] Sample.null_data)
                  "127.0.0.1:8081" (Sample.node "b:2") ["key-value"]
                  empty_world "join.json" Sample.null_data
                  eq_refl eq_refl eq_refl)).
Defined.

Lemma py_in_raises_type_error (k : string) (v : pyval) (e : exc) :
  py_in k v = Raise e -> e = TypeError.
Proof. destruct v; cbn; congruence. Qed.

Lemma py_getitem_guarded (k key : string) (v : pyval) :
  py_in k v = Ok true -> py_getitem v k <> Raise (KeyError key).
Proof.
  destruct v as [| | | | | |d]; cbn [py_in py_getitem]; try discriminate.
  unfold dict_has. destruct (dict_get d k); discriminate.
Qed.

Lemma classification_no_key_error (data : pyval) (key : string) :
  classification data <> Raise (KeyError key).
Proof.
  unfold classification, py_and, py_not_in. run.
  destruct (py_in "data" data) as [[|]|e1] eqn:H1.
  - destruct (py_getitem data "data") as [d|e2] eqn:H2.
    + destruct (py_in "createReplicasetResponse" d) as [[|]|e3] eqn:H3.
      * destruct (py_in "errors" data) as [b|e4] eqn:H4; [discriminate|].
        apply py_in_raises_type_error in H4. subst. discriminate.
      * discriminate.
      * apply py_in_raises_type_error in H3. subst. discriminate.
    + intros [= ->]. exact (py_getitem_guarded _ _ _ H1 H2).
  - discriminate.
  - apply py_in_raises_type_error in H1. subst. discriminate.
Qed.

(** The test ['data' in data] guards the subscription [data['data']],
    so [assign_roles] never raises [KeyError]: what it raises is the
    failed assertion on the roles, the failure of the call, the failure
    of the decoding, or [TypeError] from a membership test. *)
Theorem assign_roles_raises
  (env : Env) (url : string) (server : ServerDescription)
  (roles : list string) (w : world) (e : exc) :
  fst (assign_roles env url server roles w) = Raise e ->
  e = AssertionError
  \/ e = TypeError
  \/ (exists reason, e = URLError reason)
  \/ (exists text, e = JSONDecodeError text).
Proof.
  unfold assign_roles, execute, json_loads.
  destruct roles as [|role roles]; [cbn; intros [= <-]; auto|].
  cbn [list_truthy]. run.
  destruct (graphql_post _ _ _ _ _) as [[reason body|reason]|text];
    [cbn; intros [= <-]; eauto ..|].
  run. destruct (loads env text) as [data|]; [|cbn; intros [= <-]; eauto 6].
  run.
  destruct (py_and _ _) as [success|e'] eqn:Hc; [cbn; discriminate|].
  cbn [fst]. intros [= <-]. right; left.
  pose proof (classification_raises data e' Hc) as Hv.
  destruct e'; try discriminate; [|reflexivity].
  now elim (classification_no_key_error data key).
Qed.

Lemma assign_roles_raises_witness :
  TypeError = AssertionError
  \/ TypeError = TypeError
  \/ (exists reason, TypeError = URLError reason)
  \/ (exists text, TypeError = JSONDecodeError text).
Proof.
  exact (assign_roles_raises
           (Sample.two_nodes "b:2" ["key-value"] Sample.null_data)
           "127.0.0.1:8081" (Sample.node "b:2") ["key-value"] empty_world
           TypeError eq_refl).
Defined.

(** ** More on the selection *)

(** Whatever the cluster state holds, a server the selection returns is
    one of the servers it was given: the fallback does not invent one. *)
Theorem selection_returns_a_server
  (servers : list ServerDescription) (cluster_info : pyval)
  (w w' : world) (node : ServerDescription) :
  key_value_server_selection servers cluster_info w = (Ok node, w') ->
  In node servers.
Proof.
  unfold key_value_server_selection. run.
  destruct (py_getitem cluster_info "clusterSelf") as [cluster_self|];
    [|discriminate].
  run. destruct (py_getitem cluster_self "uri") as [u|]; [|discriminate].
  destruct servers as [|first rest]; [discriminate|]. cbn [list_first].
  rewrite (find_pure (fun server => py_eq (uri server) u)).
  destruct (List.find (fun server => py_eq (uri server) u) (first :: rest))
    as [s|] eqn:Hfind; intros [= <- _].
  - exact (proj1 (List.find_some _ _ Hfind)).
  - now left.
Qed.

Lemma selection_returns_a_server_witness :
  In (Sample.node "b:2") [Sample.node "a:1"; Sample.node "b:2"].
Proof.
  exact (selection_returns_a_server
           [Sample.node "a:1"; Sample.node "b:2"]
           (Sample.cluster_state "b:2" ["key-value"])
           empty_world empty_world (Sample.node "b:2") eq_refl).
Defined.

(** Given no server, the selection never returns one; when the cluster
    state has its own uri the failure is the [IndexError] of
    [servers[0]]. *)
Theorem selection_without_servers (cluster_info : pyval) (w : world) :
  (forall node w',
     key_value_server_selection [] cluster_info w <> (Ok node, w'))
  /\ (forall cluster_self u,
       py_getitem cluster_info "clusterSelf" = Ok cluster_self ->
       py_getitem cluster_self "uri" = Ok u ->
       key_value_server_selection [] cluster_info w = (Raise IndexError, w)).
Proof.
  unfold key_value_server_selection. run. split.
  - intros node w'.
    destruct (py_getitem cluster_info "clusterSelf") as [cluster_self|];
      [|discriminate].
    run. destruct (py_getitem cluster_self "uri"); discriminate.
  - intros cluster_self u -> Hu. run. now rewrite Hu.
Qed.

Lemma selection_without_servers_witness :
  key_value_server_selection [] (Sample.cluster_state "b:2" ["key-value"])
    empty_world
  = (Raise IndexError, empty_world).
Proof.
  exact (proj2 (selection_without_servers
                  (Sample.cluster_state "b:2" ["key-value"]) empty_world)
               (PyDict [("uri", PyStr "b:2")]) (PyStr "b:2")
               eq_refl eq_refl).
Defined.

(** ** More on [main] *)

(** When the probe fails, or is answered with a status other than 200
    (another 2xx included), [main] stops after that one request and has
    printed nothing. *)
Theorem main_probe_failure (env : Env) (argv : list string) (w0 : world) :
  (forall reason,
     http_get env (net w0) "http://127.0.0.1:8081/" 10 = inl reason ->
     main env argv w0
     = (Raise (RequestException reason),
        sent (HttpGet "http://127.0.0.1:8081/" 10) w0))
  /\ (forall code,
       http_get env (net w0) "http://127.0.0.1:8081/" 10 = inr code ->
       code <> 200%Z ->
       main env argv w0
       = (Raise AssertionError, sent (HttpGet "http://127.0.0.1:8081/" 10) w0)).
Proof.
  split.
  - intros reason H. unfold main, requests_get. run.
    change ("http://" ++ "127.0.0.1:8081" ++ "/")%string
      with "http://127.0.0.1:8081/".
    now rewrite H.
  - intros code H Hcode. unfold main, requests_get. run.
    change ("http://" ++ "127.0.0.1:8081" ++ "/")%string
      with "http://127.0.0.1:8081/".
    rewrite H. run.
    destruct (Z.eqb_spec code 200); [contradiction | reflexivity].
Qed.

Lemma main_probe_failure_witness :
  main Sample.no_route ["graphql_helper.py"] empty_world
  = (Raise (RequestException "no route to host"),
     sent (HttpGet "http://127.0.0.1:8081/" 10) empty_world)
  /\ main (Sample.cluster 204 (Sample.servers_answer ["a:1"; "b:2"])
             (Sample.cluster_answer "b:2" ["key-value"]) Sample.joined)
          ["graphql_helper.py"] empty_world
     = (Raise AssertionError,
        sent (HttpGet "http://127.0.0.1:8081/" 10) empty_world).
Proof.
  split.
  - exact (proj1 (main_probe_failure Sample.no_route ["graphql_helper.py"]
                    empty_world) "no route to host" eq_refl).
  - apply (proj2 (main_probe_failure
                    (Sample.cluster 204 (Sample.servers_answer ["a:1"; "b:2"])
                       (Sample.cluster_answer "b:2" ["key-value"])
                       Sample.joined)
                    ["graphql_helper.py"] empty_world) 204%Z eq_refl).
    discriminate.
Defined.

Lemma discovery_net (env : Env) (url : string) (w0 w1 : world)
  (r : result (list ServerDescription * pyval)) :
  discovery env url w0 = (r, w1) ->
  exists n,
    net w1 = net w0 ++ firstn n [HttpGet ("http://" ++ url ++ "/") 10;
                                 servers_request url; cluster_request url].
Proof.
  unfold discovery, requests_get. run.
  destruct (http_get _ _ _ _) as [reason|code].
  { intros [= <- <-]. now exists 1%nat. }
  run. destruct (code =? 200)%Z.
  2:{ intros [= <- <-]. now exists 1%nat. }
  run.
  destruct (get_servers_run env url (sent (HttpGet ("http://" ++ url ++ "/") 10) w0))
    as (rs & ws & -> & Hws & _ & _).
  destruct rs as [servers|e].
  2:{ intros [= <- <-]. exists 2%nat. rewrite Hws. cbn [net sent firstn].
      now rewrite <- app_assoc. }
  run. destruct (list_truthy servers).
  2:{ intros [= <- <-]. exists 2%nat. cbn [net wrote]. rewrite Hws.
      cbn [net sent firstn]. now rewrite <- app_assoc. }
  run.
  match goal with
  | |- context [get_cluster_info env url ?w] =>
      destruct (get_cluster_info_run env url w) as (rc & wc & -> & Hwc & _ & _)
  end.
  exists 3%nat.
  assert (Hnet : net w1 = ((net w0 ++ [HttpGet ("http://" ++ url ++ "/") 10])
                           ++ [servers_request url]) ++ [cluster_request url]).
  { destruct rc; injection H as _ <-; rewrite Hwc; cbn [net wrote];
      rewrite Hws; reflexivity. }
  rewrite Hnet. cbn [firstn]. now rewrite <- !app_assoc.
Qed.

(** The requests of any run of [main] are the first few of the probe,
    the servers query, the cluster query and the mutation, in that
    order: none is repeated, none is sent out of turn, and the mutation
    is for the role [key-value] alone. A run that ends well has sent all
    four. *)
Theorem main_requests_in_order (env : Env) (argv : list string) (w0 : world) :
  exists n key_value_server,
    net (snd (main env argv w0))
    = net w0 ++ firstn n (main_requests "127.0.0.1:8081" key_value_server)
    /\ (fst (main env argv w0) = Ok tt -> n = 4%nat).
Proof.
  rewrite main_stages. run.
  destruct (discovery env "127.0.0.1:8081" w0)
    as [[[servers cluster_info]|e] w1] eqn:Hd.
  2:{ destruct (discovery_net _ _ _ _ _ Hd) as [n Hn].
      exists (Nat.min n 3), no_fields. cbn [fst snd]. split; [|discriminate].
      rewrite Hn. f_equal.
      destruct n as [|[|[|[|n]]]]; reflexivity. }
  destruct (discovery_inv _ _ _ _ _ Hd) as (Hservers & Hnet & _).
  cbn [fst snd].
  destruct (key_value_server_selection servers cluster_info w1)
    as [[key_value_server|e] w1'] eqn:Hs.
  2:{ destruct (selection_inv _ _ _ _ _ Hservers Hs) as [-> _].
      exists 3%nat, no_fields. split; [exact Hnet | discriminate]. }
  destruct (selection_inv _ _ _ _ _ Hservers Hs) as [-> _].
  run. rewrite role_assignment_run.
  destruct (role_known cluster_info) as [[|]|e].
  - run.
    destruct (assign_roles env "127.0.0.1:8081" key_value_server ["key-value"]
                (wrote (PServer key_value_server) w1))
      as [[[success data]|e] w2] eqn:Ha;
      destruct (assign_roles_inv env _ _ ["key-value"] _ _ _ eq_refl Ha)
        as [Hnet2 _];
      exists 4%nat, key_value_server.
    + rewrite report_run.
      destruct success; cbn [fst snd net wrote]; rewrite Hnet2;
        cbn [net wrote]; rewrite Hnet, <- app_assoc; split; reflexivity.
    + cbn [fst snd]. rewrite Hnet2. cbn [net wrote].
      rewrite Hnet, <- app_assoc. split; reflexivity.
  - exists 3%nat, no_fields. split; [exact Hnet | discriminate].
  - exists 3%nat, no_fields. split; [exact Hnet | discriminate].
Qed.

Lemma main_requests_in_order_witness :
  exists n key_value_server,
    net (snd (main (Sample.two_nodes "b:2" ["key-value"] Sample.joined)
                ["graphql_helper.py"] empty_world))
    = net empty_world
      ++ firstn n (main_requests "127.0.0.1:8081" key_value_server)
    /\ (fst (main (Sample.two_nodes "b:2" ["key-value"] Sample.joined)
               ["graphql_helper.py"] empty_world) = Ok tt ->
        n = 4%nat).
Proof.
  exact (main_requests_in_order
           (Sample.two_nodes "b:2" ["key-value"] Sample.joined)
           ["graphql_helper.py"] empty_world).
Defined.

(** Unless the membership test on [knownRoles] holds (the field may be
    missing, or not a container), a run that completed the discovery
    sends nothing more and does not end well. *)
Theorem main_mutation_needs_known_role
  (env : Env) (argv : list string) (w0 w1 : world)
  (servers : list ServerDescription) (cluster_info : pyval) :
  discovery env "127.0.0.1:8081" w0 = (Ok (servers, cluster_info), w1) ->
  role_known cluster_info <> Ok true ->
  net (snd (main env argv w0)) = net w1
  /\ fst (main env argv w0) <> Ok tt.
Proof.
  intros Hd Hk. rewrite main_stages. run. rewrite Hd. cbn [fst snd].
  destruct (discovery_inv _ _ _ _ _ Hd) as (Hservers & _ & _).
  destruct (key_value_server_selection servers cluster_info w1)
    as [[key_value_server|e] w1'] eqn:Hs;
    destruct (selection_inv _ _ _ _ _ Hservers Hs) as [-> _].
  2:{ split; [reflexivity | discriminate]. }
  run. rewrite role_assignment_run.
  destruct (role_known cluster_info) as [[|]|e]; [now elim Hk | |];
    split; [reflexivity | discriminate | reflexivity | discriminate].
Qed.

(** A cluster state without [knownRoles]. *)
Lemma main_mutation_needs_known_role_witness :
  let env := Sample.cluster 200 (Sample.servers_answer ["a:1"; "b:2"])
               (PyDict [("data",
                         PyDict [("cluster",
                                  PyDict [("clusterSelf",
                                           PyDict [("uri", PyStr "b:2")])])])])
               Sample.joined in
  length (net (snd (main env ["graphql_helper.py"] empty_world))) = 3%nat
  /\ fst (main env ["graphql_helper.py"] empty_world) <> Ok tt.
Proof.
  destruct (main_mutation_needs_known_role
              (Sample.cluster 200 (Sample.servers_answer ["a:1"; "b:2"])
                 (PyDict [("data",
                           PyDict [("cluster",
                                    PyDict [("clusterSelf",
                                             PyDict [("uri", PyStr "b:2")])])])])
                 Sample.joined)
              ["graphql_helper.py"] empty_world _
              [Sample.node "a:1"; Sample.node "b:2"]
              (PyDict [("clusterSelf", PyDict [("uri", PyStr "b:2")])])
              eq_refl) as [Hnet Hend].
  - discriminate.
  - cbv zeta. rewrite Hnet. split; [reflexivity | exact Hend].
Defined.

End GraphqlHelper.

(* ===================================================================== *)
(** * Properties of the key-value test client *)
(* ===================================================================== *)

Module KvApiFacts.
Import Py KvApi.

Ltac run :=
  cbn [bind ret KvApi.Monad_M Monad_result KvApi.lift fst snd].

(** ** [make_url] *)

Lemma append_assoc (a b c : string) :
  ((a ++ b) ++ c = a ++ (b ++ c))%string.
Proof. induction a as [|x a IH]; cbn; [reflexivity | now rewrite IH]. Qed.

Lemma make_url_base (api : KeyValueStoreApi) (c : ascii) (rest : string) :
  make_url api (String c rest)
  = Ok (base_url api
        ++ (if Ascii.eqb c "/" then String c rest else rest))%string.
Proof.
  unfold make_url, base_url. cbn [str_first str_tail]. run.
  now rewrite !append_assoc.
Qed.

(** On the empty path [make_url] raises [IndexError]. A path that begins
    with a slash is appended whole. Any other path loses its first
    character, and no slash is put in its place. *)
Theorem make_url_edges (api : KeyValueStoreApi) :
  make_url api "" = Raise IndexError
  /\ (forall rest,
       make_url api (String "/" rest)
       = Ok (base_url api ++ String "/" rest)%string)
  /\ (forall c rest,
       c <> "/"%char ->
       make_url api (String c rest) = Ok (base_url api ++ rest)%string).
Proof.
  split; [reflexivity|]. split.
  - intros rest. now rewrite make_url_base.
  - intros c rest Hc. rewrite make_url_base.
    destruct (Ascii.eqb_spec c "/"); [contradiction | reflexivity].
Qed.

Lemma make_url_edges_witness :
  make_url local_api "kv/1" = Ok "http://127.0.0.1:80v/1".
Proof.
  apply (proj2 (proj2 (make_url_edges local_api)) "k"%char "v/1").
  discriminate.
Defined.

(** ** [make_path] *)

Lemma make_path_cases (action : Action) :
  make_path action
  = match key action with
    | Some (String c k) => ("/kv/" ++ String c k)%string
    | _ => "/kv"
    end.
Proof.
  unfold make_path, path. destruct (key action) as [[|c k]|]; reflexivity.
Qed.

(** The path of an action always begins with a slash, so [make_url]
    neither raises on it nor cuts it: the address of an action is the
    base of the client followed by [/kv], or by [/kv/] and the key. *)
Lemma make_url_make_path (api : KeyValueStoreApi) (action : Action) :
  make_url api (make_path action)
  = Ok (base_url api ++ make_path action)%string.
Proof.
  rewrite make_path_cases.
  destruct (key action) as [[|c k]|]; apply make_url_base.
Qed.

Theorem make_url_of_make_path (api : KeyValueStoreApi) (action : Action) :
  make_url api (make_path action)
  = Ok (base_url api ++ make_path action)%string
  /\ (make_path action = "/kv"
      \/ exists k, key action = Some k /\ k <> ""
                   /\ make_path action = ("/kv/" ++ k)%string).
Proof.
  rewrite make_path_cases.
  destruct (key action) as [[|c k]|].
  - split; [apply make_url_base | now left].
  - split; [apply make_url_base|]. right. exists (String c k).
    repeat split. discriminate.
  - split; [apply make_url_base | now left].
Qed.

(** ** [make_request] *)

Section Requests.

Variable env : Env.
Variable api : KeyValueStoreApi.

(** A method outside [GET], [PUT], [POST] and [DELETE] raises
    [KeyError] before anything else is looked at: no call is made, even
    when the path is one [make_url] would reject. *)
Theorem make_request_unknown_method
  (method path : string) (kw : list (string * body_arg)) (w : world) :
  ~ In method [GET; PUT; POST; DELETE] ->
  make_request env api method path kw w = (Raise (KeyError method), w).
Proof.
  intros Hnot. unfold make_request, method_function, methods. run.
  cbn [dict_get].
  destruct (String.eqb_spec GET method) as [<-|_];
    [elim Hnot; cbn; tauto|].
  destruct (String.eqb_spec PUT method) as [<-|_];
    [elim Hnot; cbn; tauto|].
  destruct (String.eqb_spec POST method) as [<-|_];
    [elim Hnot; cbn; tauto|].
  destruct (String.eqb_spec DELETE method) as [<-|_];
    [elim Hnot; cbn; tauto|].
  reflexivity.
Qed.

(** With a known method and an empty path, [IndexError], and again no
    call. *)
Theorem make_request_empty_path
  (method : string) (kw : list (string * body_arg)) (w : world) :
  In method [GET; PUT; POST; DELETE] ->
  make_request env api method "" kw w = (Raise IndexError, w).
Proof.
  intros [<-|[<-|[<-|[<-|[]]]]]; reflexivity.
Qed.

(** With a known method and a path that is not empty, exactly one call
    is made, to the address [make_url] gives. When it is answered, the
    status is returned; the content comes with it unless the status is
    500, for which it is withheld. When it fails, the failure is
    raised. *)
Theorem make_request_answered
  (method path target : string) (f : http_function)
  (kw : list (string * body_arg)) (w : world) :
  method_function api method = Ok f ->
  make_url api path = Ok target ->
  snd (make_request env api method path kw w)
  = called {| function := f; url := target; kwargs := kw |} w
  /\ fst (make_request env api method path kw w)
     = match answer env (calls w) f target kw with
       | inl reason => Raise (RequestException reason)
       | inr r =>
           Ok (status_code r,
               if (status_code r =? 500)%Z then None else Some (content r))
       end.
Proof.
  intros Hf Hurl. unfold make_request, requests_call. run.
  rewrite Hf, Hurl. run.
  destruct (answer env (calls w) f target kw) as [reason|r].
  - split; reflexivity.
  - destruct (status_code r =? 500)%Z; split; reflexivity.
Qed.

End Requests.

Lemma make_request_unknown_method_witness :
  make_request (always 200) local_api "get" "" [] empty_world
  = (Raise (KeyError "get"), empty_world).
Proof.
  apply (make_request_unknown_method (always 200) local_api "get" "" []
           empty_world).
  intros [H|[H|[H|[H|[]]]]]; discriminate.
Defined.

Lemma make_request_empty_path_witness :
  make_request (always 200) local_api "GET" "" [] empty_world
  = (Raise IndexError, empty_world).
Proof.
  apply (make_request_empty_path (always 200) local_api "GET" [] empty_world).
  now left.
Defined.

Lemma make_request_answered_witness :
  fst (make_request (always 500) local_api "PUT" "/kv/key_arr" [] empty_world)
  = Ok (500%Z, None)
  /\ fst (make_request (always 404) local_api "PUT" "/kv/key_arr" [] empty_world)
     = Ok (404%Z, Some "body").
Proof.
  split.
  - exact (proj2 (make_request_answered (always 500) local_api "PUT"
                    "/kv/key_arr" "http://127.0.0.1:80/kv/key_arr"
                    requests_put [] empty_world eq_refl eq_refl)).
  - exact (proj2 (make_request_answered (always 404) local_api "PUT"
                    "/kv/key_arr" "http://127.0.0.1:80/kv/key_arr"
                    requests_put [] empty_world eq_refl eq_refl)).
Defined.

(** ** [Action] *)

Section Actions.

Variable env : Env.

(** The key is kept only when it is a string that is not empty: an
    action built with the empty key addresses the collection [/kv], like
    an action built with no key. The method and the expected status are
    kept as given. *)
Theorem Action_init_key
  (method : string) (expected_code : Z) (body : body_arg) (json : bool)
  (key : option string) (expected_body : pyval) (comment : option string)
  (action : Action) :
  Action_init env method expected_code body json key expected_body comment
  = Ok action ->
  make_path action
  = match key with
    | Some (String c k) => ("/kv/" ++ String c k)%string
    | _ => "/kv"
    end
  /\ KvApi.method action = method
  /\ ex_code action = expected_code.
Proof.
  unfold Action_init. run.
  match goal with
  | |- match ?stored with _ => _ end = _ -> _ => destruct stored as [b|e]
  end; [|discriminate].
  intros [= <-]. rewrite make_path_cases. cbn [KvApi.key KvApi.method ex_code].
  destruct key as [[|c k]|]; repeat split.
Qed.

(** [Action_init] raises only for a JSON body given as a tuple of fewer
    than two items, and then [IndexError]. *)
Theorem Action_init_raises
  (method : string) (expected_code : Z) (body : body_arg) (json : bool)
  (key : option string) (expected_body : pyval) (comment : option string)
  (e : exc) :
  Action_init env method expected_code body json key expected_body comment
  = Raise e ->
  e = IndexError
  /\ json = true
  /\ exists items, body = Tuple items /\ (length items < 2)%nat.
Proof.
  unfold Action_init, tuple_item. run.
  destruct json; [|discriminate].
  destruct body as [items|v]; [|discriminate].
  destruct items as [|k [|v extra]]; cbn [nth_error]; run;
    try discriminate; intros [= <-]; repeat split; eexists; split;
    try reflexivity; cbn; lia.
Qed.

(** With [json], what is stored as the body is text: the payload of the
    first two items of a tuple (further items are ignored), or the
    encoding of [{'value': body}] for any other body. Without [json] the
    body is stored as given. *)
Theorem Action_init_body
  (method : string) (expected_code : Z) (body : body_arg) (json : bool)
  (key : option string) (expected_body : pyval) (comment : option string)
  (action : Action) :
  Action_init env method expected_code body json key expected_body comment
  = Ok action ->
  match json, body with
  | true, Tuple (k :: v :: _) =>
      KvApi.body action = Value (PyStr (make_payload env k v))
  | true, Tuple _ => False
  | true, Value v =>
      KvApi.body action = Value (PyStr (dumps env (PyDict [("value", v)])))
  | false, _ => KvApi.body action = body
  end.
Proof.
  unfold Action_init, tuple_item. run.
  destruct json.
  - destruct body as [items|v].
    + destruct items as [|k [|v extra]]; cbn [nth_error]; run;
        try discriminate.
      intros [= <-]. reflexivity.
    + intros [= <-]. reflexivity.
  - intros [= <-]. reflexivity.
Qed.

(** ** [perform] and [test_sequence] *)

Variable api : KeyValueStoreApi.

Lemma perform_run (action : Action) (f : http_function) (w : world) :
  method_function api (KvApi.method action) = Ok f ->
  perform env action api w
  = match answer env (calls w) f (url (call_of api f action))
            (kwargs (call_of api f action)) with
    | inl reason =>
        (Raise (RequestException reason), called (call_of api f action) w)
    | inr r =>
        (Ok tt,
         if (status_code r =? ex_code action)%Z
         then called (call_of api f action) w
         else failed (failure_of action (status_code r))
                (called (call_of api f action) w))
    end.
Proof.
  intros Hf. unfold perform, make_request, requests_call. run.
  rewrite Hf. run.
  rewrite (make_url_make_path api action). run.
  unfold call_of, base_url. cbn [url kwargs].
  rewrite !append_assoc.
  destruct (answer env _ _ _ _) as [reason|r]; [reflexivity|].
  destruct (status_code r =? 500)%Z; cbn [fst];
    destruct (status_code r =? ex_code action)%Z; reflexivity.
Qed.

(** An action with a known method makes exactly one call, to the
    address of its path, with its body as [data] ([None] when the body
    is empty). When the call is answered, [perform] returns normally
    whatever the status: a status other than the expected one is
    recorded as a failure, not raised. When the call fails, the failure
    is raised and nothing is recorded. *)
Theorem perform_one_call (action : Action) (f : http_function) (w : world) :
  method_function api (KvApi.method action) = Ok f ->
  calls (snd (perform env action api w)) = calls w ++ [call_of api f action]
  /\ (forall r,
       answer env (calls w) f (url (call_of api f action))
         (kwargs (call_of api f action)) = inr r ->
       fst (perform env action api w) = Ok tt
       /\ failures (snd (perform env action api w))
          = failures w
            ++ (if (status_code r =? ex_code action)%Z then []
                else [failure_of action (status_code r)]))
  /\ (forall reason,
       answer env (calls w) f (url (call_of api f action))
         (kwargs (call_of api f action)) = inl reason ->
       fst (perform env action api w) = Raise (RequestException reason)
       /\ failures (snd (perform env action api w)) = failures w).
Proof.
  intros Hf. rewrite (perform_run action f w Hf).
  destruct (answer env _ _ _ _) as [reason|r].
  - split; [reflexivity|]. split; [discriminate|].
    intros reason' [= <-]. split; reflexivity.
  - split; [destruct (status_code r =? ex_code action)%Z; reflexivity|].
    split; [|discriminate].
    intros r' [= <-]. split; [reflexivity|].
    destruct (status_code r =? ex_code action)%Z; cbn [snd failures called failed].
    + now rewrite app_nil_r.
    + reflexivity.
Qed.

End Actions.

Lemma Action_init_key_witness :
  make_path {| KvApi.method := "GET"; ex_code := 200; body := Value PyNone;
               key := None; ex_body := PyNone; cmt := None |}
  = "/kv".
Proof.
  exact (proj1 (Action_init_key (always 200) "GET" 200 (Value PyNone) false
                  (Some "") PyNone None _ eq_refl)).
Defined.

Lemma Action_init_raises_witness :
  exists items,
    Tuple [PyStr "key_str"] = Tuple items /\ (length items < 2)%nat.
Proof.
  exact (proj2 (proj2 (Action_init_raises (always 200) "POST" 201
                         (Tuple [PyStr "key_str"]) true None PyNone None
                         IndexError eq_refl))).
Defined.

Lemma Action_init_body_witness :
  body {| KvApi.method := "POST"; ex_code := 201;
          body := Value (PyStr "json"); key := None;
          ex_body := PyNone; cmt := None |}
  = Value (PyStr (make_payload (always 200) (PyStr "key_str") (PyStr "text"))).
Proof.
  exact (Action_init_body (always 200) "POST" 201
           (Tuple [PyStr "key_str"; PyStr "text"; PyStr "ignored"]) true
           None PyNone None _ eq_refl).
Defined.

Lemma perform_one_call_witness :
  let action := {| KvApi.method := "GET"; ex_code := 200;
                   body := Value PyNone; key := Some "420";
                   ex_body := PyNone; cmt := Some "get: key not found" |} in
  fst (perform (always 404) action local_api empty_world) = Ok tt
  /\ failures (snd (perform (always 404) action local_api empty_world))
     = [failure_of action 404].
Proof.
  exact (proj1 (proj2 (perform_one_call (always 404)
                         local_api
                         {| KvApi.method := "GET"; ex_code := 200;
                            body := Value PyNone; key := Some "420";
                            ex_body := PyNone;
                            cmt := Some "get: key not found" |}
                         requests_get empty_world eq_refl))
           {| status_code := 404; content := "body" |} eq_refl).
Defined.

Lemma method_known (api : KeyValueStoreApi) (method : string) :
  In method [GET; PUT; POST; DELETE] ->
  exists f, method_function api method = Ok f.
Proof. intros [<-|[<-|[<-|[<-|[]]]]]; eexists; reflexivity. Qed.

Section Sequences.

Variable env : Env.
Variable api : KeyValueStoreApi.

(** Against a service that answers every call, with the status [code],
    a sequence of actions with known methods runs to its end: one call
    per action, in the order of the sequence, to the address of each
    action; and the failures recorded are those of the actions that
    expected another status, in the same order. A failed action does not
    stop the ones after it. *)
Theorem test_sequence_records_mismatches
  (code : Z) (seq : list Action) (w : world) :
  (forall action, In action seq ->
                  In (KvApi.method action) [GET; PUT; POST; DELETE]) ->
  (forall history f target kw,
     exists r, answer env history f target kw = inr r
               /\ status_code r = code) ->
  exists w',
    test_sequence env api seq w = (Ok tt, w')
    /\ map url (calls w')
       = map url (calls w)
         ++ map (fun action => (base_url api ++ make_path action)%string) seq
    /\ failures w'
       = failures w
         ++ map (fun action => failure_of action code)
              (filter (fun action => negb (code =? ex_code action)%Z) seq).
Proof.
  intros Hmethods Hanswer. revert w.
  induction seq as [|action rest IH]; intros w; cbn [test_sequence].
  - exists w. cbn. now rewrite !app_nil_r.
  - run.
    destruct (method_known api (KvApi.method action)) as [f Hf].
    { apply Hmethods. now left. }
    rewrite (perform_run env api action f w Hf).
    destruct (Hanswer (calls w) f (url (call_of api f action))
                (kwargs (call_of api f action))) as [r [-> <-]].
    assert (Hrest : forall a, In a rest ->
                              In (KvApi.method a) [GET; PUT; POST; DELETE]).
    { intros a Ha. apply Hmethods. now right. }
    cbn [filter map].
    destruct (status_code r =? ex_code action)%Z; cbn [negb].
    + destruct (IH Hrest (called (call_of api f action) w))
        as (w' & -> & Hcalls & Hfailures).
      exists w'. split; [reflexivity|]. split.
      * rewrite Hcalls. cbn [calls called]. rewrite map_app, <- app_assoc.
        reflexivity.
      * exact Hfailures.
    + destruct (IH Hrest (failed (failure_of action (status_code r))
                            (called (call_of api f action) w)))
        as (w' & -> & Hcalls & Hfailures).
      exists w'. split; [reflexivity|]. split.
      * rewrite Hcalls. cbn [calls called failed].
        rewrite map_app, <- app_assoc. reflexivity.
      * rewrite Hfailures. cbn [failures called failed map].
        rewrite <- app_assoc. reflexivity.
Qed.

(** A call that fails stops the sequence there: the failure is raised,
    and the actions after it make no call. *)
Theorem test_sequence_stops_at_failed_call
  (action : Action) (rest : list Action) (f : http_function) (w : world)
  (reason : string) :
  method_function api (KvApi.method action) = Ok f ->
  answer env (calls w) f (url (call_of api f action))
    (kwargs (call_of api f action)) = inl reason ->
  test_sequence env api (action :: rest) w
  = (Raise (RequestException reason), called (call_of api f action) w).
Proof.
  intros Hf Hanswer. cbn [test_sequence]. run.
  rewrite (perform_run env api action f w Hf), Hanswer. reflexivity.
Qed.

End Sequences.

Lemma test_sequence_records_mismatches_witness :
  let found := {| KvApi.method := "GET"; ex_code := 200;
                  body := Value PyNone; key := Some "key_str";
                  ex_body := PyNone; cmt := None |} in
  let missing := {| KvApi.method := "GET"; ex_code := 404;
                    body := Value PyNone; key := Some "420";
                    ex_body := PyNone; cmt := Some "get: key not found" |} in
  exists w',
    test_sequence (always 200) local_api [found; missing; found] empty_world
    = (Ok tt, w')
    /\ map url (calls w')
       = ["http://127.0.0.1:80/kv/key_str"; "http://127.0.0.1:80/kv/420";
          "http://127.0.0.1:80/kv/key_str"]
    /\ failures w' = [failure_of missing 200].
Proof.
  cbv zeta.
  apply (test_sequence_records_mismatches (always 200) local_api 200).
  - intros action [<-|[<-|[<-|[]]]]; cbn; tauto.
  - intros history f target kw. eexists; split; reflexivity.
Defined.

Lemma test_sequence_stops_at_failed_call_witness :
  let action := {| KvApi.method := "DELETE"; ex_code := 200;
                   body := Value PyNone; key := Some "key_str";
                   ex_body := PyNone; cmt := None |} in
  let down := {| answer := fun _ _ _ _ => inl "connection refused";
                 dumps := fun _ => "json" |} in
  length (calls (snd (test_sequence down local_api [action; action; action]
                        empty_world))) = 1%nat.
Proof.
  cbv zeta.
  rewrite (test_sequence_stops_at_failed_call
             {| answer := fun _ _ _ _ => inl "connection refused";
                dumps := fun _ => "json" |}
             local_api
             {| KvApi.method := "DELETE"; ex_code := 200;
                body := Value PyNone; key := Some "key_str";
                ex_body := PyNone; cmt := None |}
             _ requests_delete empty_world "connection refused"
             eq_refl eq_refl).
  reflexivity.
Defined.

End KvApiFacts.
